(** * Azure Storage exporter: refresh cache, fan-out, container scanner

    A shallow embedding of [azure_storage_exporter.py] (class
    [AzureStorageCollector]) and proofs of the properties its specification
    states about it.

    Python integers are [Z]; the floats of the sampling branch are IEEE
    binary64 values of [SpecFloat]; a dict keyed by container name is a
    [gmap string]; statements that can raise run in a state-and-exception
    monad in which the state written before a raise survives it, as local
    variables and attributes do in Python. *)

From Stdlib Require Import ZArith Bool Lia.
From Stdlib.Floats Require Import SpecFloat.
From stdpp Require Import base option list strings gmap fin_maps.

Local Open Scope Z_scope.

(** ** Exceptions and outcomes *)

(** The exception classes that matter; all derive from [Exception]. *)
Inductive Exn : Type :=
  | OverflowError
  | ValueError
  | ZeroDivisionError
  | TypeError
  | AttributeError
  | AzureError (code : Z).

Inductive Outcome (A : Type) : Type :=
  | Returned (a : A)
  | Raised (e : Exn).
Arguments Returned {A} a.
Arguments Raised {A} e.

(** ** A state-and-exception monad

    [Py S A] is a statement sequence over mutable state [S] that either
    returns an [A] or raises; the state reached at the raise is kept. *)
Definition Py (S A : Type) : Type := S -> Outcome A * S.

Module PyMonad.
Section Ops.
Context {S : Type}.

Definition ret {A} (a : A) : Py S A := fun s => (Returned a, s).

Definition bind {A B} (m : Py S A) (k : A -> Py S B) : Py S B :=
  fun s => match m s with
           | (Returned a, s') => k a s'
           | (Raised e, s') => (Raised e, s')
           end.

Definition raise {A} (e : Exn) : Py S A := fun s => (Raised e, s).

Definition get : Py S S := fun s => (Returned s, s).

Definition modify (f : S -> S) : Py S unit := fun s => (Returned tt, f s).

(** [try: body / except Exception as e: handler e]. *)
Definition try_except {A} (body : Py S A) (handler : Exn -> Py S A) : Py S A :=
  fun s => match body s with
           | (Returned a, s') => (Returned a, s')
           | (Raised e, s') => handler e s'
           end.

(** A pure computation that may raise, run as a statement. *)
Definition lift {A} (o : Outcome A) : Py S A := fun s => (o, s).
End Ops.
End PyMonad.

#[global] Instance Py_ret {S} : MRet (Py S) := @PyMonad.ret S.
#[global] Instance Py_bind {S} : MBind (Py S) := fun A B k m => PyMonad.bind m k.

(** ** Python numbers: the arithmetic of the sampling branch *)
Module PyNum.

Definition prec : Z := 53.
Definition emax : Z := 1024.

(** A value that is an [int] or a [float]. *)
Inductive Number : Type :=
  | PyInt (z : Z)
  | PyFloat (f : spec_float).

(** [float(z)]: round to nearest, ties to even; [OverflowError] when the
    result is not finite. *)
Definition float_of_int (z : Z) : Outcome spec_float :=
  match binary_normalize prec emax z 0 false with
  | S754_infinity _ => Raised OverflowError
  | f => Returned f
  end.

(** [a / b] on two ints: the correctly rounded quotient. *)
Definition truediv (a b : Z) : Outcome Number :=
  match a, b with
  | _, Z0 => Raised ZeroDivisionError
  | Z0, _ => Returned (PyFloat (S754_zero (b <? 0)))
  | _, _ =>
      match SFdiv prec emax
              (S754_finite (a <? 0) (Z.to_pos (Z.abs a)) 0)
              (S754_finite (b <? 0) (Z.to_pos (Z.abs b)) 0) with
      | S754_infinity _ => Raised OverflowError
      | q => Returned (PyFloat q)
      end
  end.

(** [z * r] with an int on the left. *)
Definition mul_int (z : Z) (r : Number) : Outcome Number :=
  match r with
  | PyInt k => Returned (PyInt (z * k))
  | PyFloat f =>
      match float_of_int z with
      | Returned fz => Returned (PyFloat (SFmul prec emax fz f))
      | Raised e => Raised e
      end
  end.

(** [int(x)]: truncation towards zero. *)
Definition int (x : Number) : Outcome Z :=
  match x with
  | PyInt z => Returned z
  | PyFloat S754_nan => Raised ValueError
  | PyFloat (S754_infinity _) => Raised OverflowError
  | PyFloat (S754_zero _) => Returned 0
  | PyFloat (S754_finite s m e) =>
      let magnitude :=
        if 0 <=? e then Z.shiftl (Zpos m) e else Z.shiftr (Zpos m) (- e) in
      Returned (if s then - magnitude else magnitude)
  end.

(** [r * z] with an int on the right; a product out of range is [inf],
    not an exception. *)
Definition mul_by_int (r : Number) (z : Z) : Outcome Number :=
  match r with
  | PyInt k => Returned (PyInt (k * z))
  | PyFloat f =>
      match float_of_int z with
      | Returned fz => Returned (PyFloat (SFmul prec emax f fz))
      | Raised e => Raised e
      end
  end.

(** [1.0] *)
Definition one : spec_float := S754_finite false 4503599627370496 (-52).

(** [int(z * r)] *)
Definition int_mul (z : Z) (r : Number) : Outcome Z :=
  match mul_int z r with
  | Returned p => int p
  | Raised e => Raised e
  end.

End PyNum.

(** ** The metrics of one container: the dict the scanner returns *)
Module Metrics.

Record ContainerMetrics : Type := {
  size_bytes : Z;
  blob_count : Z;
  deleted_size_bytes : Z;
  deleted_blob_count : Z;
  snapshot_size_bytes : Z;
  snapshot_count : Z;
  version_size_bytes : Z;
  version_count : Z
}.

End Metrics.

(** ** Container Inventory Scanner: [_process_single_container] *)
Module Scanner.

(** One listed blob, as the scanner's attribute probes see it. [None]
    stands for an attribute that is missing or holds [None]. *)
Record BlobProperties : Type := {
  size : option Z;
  deleted : option bool;
  snapshot : option string;
  version_id : option string;
  has_is_current_version : bool   (* [hasattr(blob, 'is_current_version')] *)
}.

(** The iterator returned by [list_blobs]: it yields blobs until it is
    exhausted or a page request fails. *)
Inductive ItemPaged : Type :=
  | Exhausted
  | Fails (e : Exn)
  | Next (blob : BlobProperties) (rest : ItemPaged).

Inductive Include : Type := inc_deleted | inc_snapshots | inc_versions.

(** The container client: what [list_blobs(include=...)] iterates over. *)
Definition ContainerClient : Type := list Include -> ItemPaged.

(** The blob service client of the collector: [get_container_client]
    hands out the client of a container, or raises. *)
Record BlobServiceClient : Type := {
  get_container_client : string -> Outcome ContainerClient
}.

Record Config : Type := {
  max_blobs_per_container : Z;
  use_sampling : bool
}.

(** The eight local counters. *)
Record Counters : Type := {
  total_size : Z;
  blob_count : Z;
  deleted_size : Z;
  deleted_count : Z;
  snapshot_size : Z;
  snapshot_count : Z;
  version_size : Z;
  version_count : Z
}.

(** The returned dict. *)
Abbreviation ContainerMetrics := Metrics.ContainerMetrics.

Inductive Event : Type :=
  | ListBlobs (include : list Include)
  | LogInfoSampling (processed_count : Z)
  | LogWarningLimit (processed_count : Z)
  | LogWarningListAll (e : Exn)
  | LogInfoBasicListing
  | LogErrorListing (e : Exn)
  | LogInfoSummary.

(** What the function body mutates: its counters, and what it did. *)
Record Locals : Type := {
  counters : Counters;
  events : list Event
}.

Definition initial : Locals :=
  {| counters := {| total_size := 0; blob_count := 0;
                    deleted_size := 0; deleted_count := 0;
                    snapshot_size := 0; snapshot_count := 0;
                    version_size := 0; version_count := 0 |};
     events := [] |}.

Definition emit (ev : Event) : Py Locals unit :=
  PyMonad.modify (fun l => {| counters := counters l; events := events l ++ [ev] |}).

Definition update (f : Counters -> Counters) : Py Locals unit :=
  PyMonad.modify (fun l => {| counters := f (counters l); events := events l |}).

Definition read {A} (f : Counters -> A) : Py Locals A :=
  fun l => (Returned (f (counters l)), l).

(** Field assignments. *)
Definition set_total_size v c :=
  {| total_size := v; blob_count := blob_count c;
     deleted_size := deleted_size c; deleted_count := deleted_count c;
     snapshot_size := snapshot_size c; snapshot_count := snapshot_count c;
     version_size := version_size c; version_count := version_count c |}.
Definition set_blob_count v c :=
  {| total_size := total_size c; blob_count := v;
     deleted_size := deleted_size c; deleted_count := deleted_count c;
     snapshot_size := snapshot_size c; snapshot_count := snapshot_count c;
     version_size := version_size c; version_count := version_count c |}.
Definition set_deleted_size v c :=
  {| total_size := total_size c; blob_count := blob_count c;
     deleted_size := v; deleted_count := deleted_count c;
     snapshot_size := snapshot_size c; snapshot_count := snapshot_count c;
     version_size := version_size c; version_count := version_count c |}.
Definition set_deleted_count v c :=
  {| total_size := total_size c; blob_count := blob_count c;
     deleted_size := deleted_size c; deleted_count := v;
     snapshot_size := snapshot_size c; snapshot_count := snapshot_count c;
     version_size := version_size c; version_count := version_count c |}.
Definition set_snapshot_size v c :=
  {| total_size := total_size c; blob_count := blob_count c;
     deleted_size := deleted_size c; deleted_count := deleted_count c;
     snapshot_size := v; snapshot_count := snapshot_count c;
     version_size := version_size c; version_count := version_count c |}.
Definition set_snapshot_count v c :=
  {| total_size := total_size c; blob_count := blob_count c;
     deleted_size := deleted_size c; deleted_count := deleted_count c;
     snapshot_size := snapshot_size c; snapshot_count := v;
     version_size := version_size c; version_count := version_count c |}.
Definition set_version_size v c :=
  {| total_size := total_size c; blob_count := blob_count c;
     deleted_size := deleted_size c; deleted_count := deleted_count c;
     snapshot_size := snapshot_size c; snapshot_count := snapshot_count c;
     version_size := v; version_count := version_count c |}.
Definition set_version_count v c :=
  {| total_size := total_size c; blob_count := blob_count c;
     deleted_size := deleted_size c; deleted_count := deleted_count c;
     snapshot_size := snapshot_size c; snapshot_count := snapshot_count c;
     version_size := version_size c; version_count := v |}.

(** The three probes of the loop body. *)
Definition is_deleted (blob : BlobProperties) : bool :=
  match deleted blob with Some true => true | _ => false end.

Definition is_snapshot (blob : BlobProperties) : bool :=
  match snapshot blob with Some _ => true | None => false end.

Definition is_version (blob : BlobProperties) : bool :=
  match version_id blob with
  | Some _ => negb (has_is_current_version blob)
  | None => false
  end.

(** [if blob.size: x += blob.size]: a missing or zero size adds nothing. *)
Definition add_size (blob : BlobProperties) (x : Z) : Z :=
  match size blob with
  | Some s => if s =? 0 then x else x + s
  | None => x
  end.

(** The [if/elif/elif/else] of the full listing. *)
Definition tally (blob : BlobProperties) (c : Counters) : Counters :=
  if is_deleted blob then
    set_deleted_count (deleted_count c + 1)
      (set_deleted_size (add_size blob (deleted_size c)) c)
  else if is_snapshot blob then
    set_snapshot_count (snapshot_count c + 1)
      (set_snapshot_size (add_size blob (snapshot_size c)) c)
  else if is_version blob then
    set_version_count (version_count c + 1)
      (set_version_size (add_size blob (version_size c)) c)
  else
    set_blob_count (blob_count c + 1)
      (set_total_size (add_size blob (total_size c)) c).

(** The [if/else] of the fallback listing. *)
Definition tally_basic (blob : BlobProperties) (c : Counters) : Counters :=
  if is_deleted blob then
    set_deleted_count (deleted_count c + 1)
      (set_deleted_size (add_size blob (deleted_size c)) c)
  else
    set_blob_count (blob_count c + 1)
      (set_total_size (add_size blob (total_size c)) c).

(** [x = int(x * sample_ratio)] for one counter. *)
Definition rescale (field : Counters -> Z) (assign : Z -> Counters -> Counters)
    (sample_ratio : PyNum.Number) : Py Locals unit :=
  x ← read field;
  v ← PyMonad.lift (PyNum.int_mul x sample_ratio);
  update (assign v).

(** The sampling branch: the ratio, then the eight assignments in order. *)
Definition estimate (cfg : Config) (processed_count : Z) : Py Locals unit :=
  sample_ratio ← PyMonad.lift
    (if 0 <? processed_count
     then PyNum.truediv processed_count (max_blobs_per_container cfg)
     else Returned (PyNum.PyInt 1));
  rescale total_size set_total_size sample_ratio;;
  rescale blob_count set_blob_count sample_ratio;;
  rescale deleted_size set_deleted_size sample_ratio;;
  rescale deleted_count set_deleted_count sample_ratio;;
  rescale snapshot_size set_snapshot_size sample_ratio;;
  rescale snapshot_count set_snapshot_count sample_ratio;;
  rescale version_size set_version_size sample_ratio;;
  rescale version_count set_version_count sample_ratio;;
  emit (LogInfoSampling processed_count).

(** [for blob in all_blobs: ...] of the full listing; [processed_count]
    is the loop's own counter. *)
Fixpoint scan_all (cfg : Config) (all_blobs : ItemPaged) (processed_count : Z)
    : Py Locals unit :=
  match all_blobs with
  | Exhausted => mret tt
  | Fails e => PyMonad.raise e
  | Next blob rest =>
      if (0 <? max_blobs_per_container cfg)
         && (max_blobs_per_container cfg <=? processed_count)
      then
        if use_sampling cfg
        then estimate cfg processed_count
        else emit (LogWarningLimit processed_count)
      else
        update (tally blob);;
        scan_all cfg rest (processed_count + 1)
  end.

(** [for blob in blobs: ...] of the fallback listing. *)
Fixpoint scan_basic (blobs : ItemPaged) : Py Locals unit :=
  match blobs with
  | Exhausted => mret tt
  | Fails e => PyMonad.raise e
  | Next blob rest => update (tally_basic blob);; scan_basic rest
  end.

Definition list_blobs (client : ContainerClient) (include : list Include)
    : Py Locals ItemPaged :=
  emit (ListBlobs include);; mret (client include).

Definition metrics_of (c : Counters) : ContainerMetrics :=
  {| Metrics.size_bytes := total_size c;
     Metrics.blob_count := blob_count c;
     Metrics.deleted_size_bytes := deleted_size c;
     Metrics.deleted_blob_count := deleted_count c;
     Metrics.snapshot_size_bytes := snapshot_size c;
     Metrics.snapshot_count := snapshot_count c;
     Metrics.version_size_bytes := version_size c;
     Metrics.version_count := version_count c |}.

(** Lines 436-509: the full listing and, when it raises, the reduced
    one; no exception of either leaves the block. *)
Definition count_blobs (cfg : Config) (container_client : ContainerClient)
    : Py Locals unit :=
  PyMonad.try_except
    (all_blobs ← list_blobs container_client [inc_deleted; inc_snapshots; inc_versions];
     scan_all cfg all_blobs 0)
    (fun e =>
       emit (LogWarningListAll e);;
       PyMonad.try_except
         (emit LogInfoBasicListing;;
          blobs ← list_blobs container_client [inc_deleted];
          scan_basic blobs)
         (fun e2 => emit (LogErrorListing e2))).

(** Lines 512-523: the totals, the waste percentage, and the summary line,
    whose f-string divides each byte total by [1024**3] before
    [logger.info] is called. Formatting the quotients raises nothing. *)
Definition log_summary : Py Locals unit :=
  c ← read id;
  let total_blobs :=
    blob_count c + deleted_count c + snapshot_count c + version_count c in
  let total_bytes :=
    total_size c + deleted_size c + snapshot_size c + version_size c in
  waste_pct ← PyMonad.lift
    (if 0 <? total_bytes
     then
       match PyNum.truediv (deleted_size c + snapshot_size c + version_size c)
               total_bytes with
       | Returned quotient => PyNum.mul_by_int quotient 100
       | Raised e => Raised e
       end
     else Returned (PyNum.PyInt 0));
  PyMonad.lift (PyNum.truediv (total_size c) (1024 ^ 3));;
  PyMonad.lift (PyNum.truediv (deleted_size c) (1024 ^ 3));;
  PyMonad.lift (PyNum.truediv (snapshot_size c) (1024 ^ 3));;
  PyMonad.lift (PyNum.truediv (version_size c) (1024 ^ 3));;
  emit LogInfoSummary.

(** The method: the container client (line 424) and the summary (lines
    512-523) are outside the [try], so what they raise reaches the
    caller. *)
Definition _process_single_container (cfg : Config)
    (blob_service_client : BlobServiceClient) (container_name : string)
    : Py Locals (string * ContainerMetrics) :=
  container_client ← PyMonad.lift
    (get_container_client blob_service_client container_name);
  update (fun _ => counters initial);;
  count_blobs cfg container_client;;
  log_summary;;
  c ← read id;
  mret (container_name, metrics_of c).

(** The counting of the method on its own: lines 426-509 and 525-534 for
    a container client in hand, the summary line logged with its numbers
    left unevaluated. It gives the counters, the events and the dict of a
    call that raises neither at line 424 nor in the summary. *)
Definition process_single_container (cfg : Config) (container_name : string)
    (client : ContainerClient) : Outcome (string * ContainerMetrics) * Locals :=
  (count_blobs cfg client;;
   emit LogInfoSummary;;
   c ← read id;
   mret (container_name, metrics_of c)) initial.

End Scanner.

(** ** Fan-Out Coordinator: [_get_container_metrics] *)
Module FanOut.
Import Scanner.

(** A submitted task once it is done: the container it was submitted for
    and what [future.result()] does. *)
Record Future : Type := {
  container_name : string;
  result : Outcome (string * ContainerMetrics)
}.

(** The storage account as the coordinator meets it: the container
    listing, and the executor's futures in the order they complete. *)
Record BlobService : Type := {
  list_containers : Outcome (list string);
  as_completed : list string -> list Future
}.

Inductive Event : Type :=
  | LogInfoFound (container_count : Z)
  | LogWarningNoContainers
  | LogInfoProcessing
  | LogDebugProgress (completed container_count : Z)
  | LogErrorContainer (container_name : string) (e : Exn)
  | LogErrorGetting (e : Exn)
  | LogInfoSummary.

Record Locals : Type := {
  containers_data : gmap string ContainerMetrics;
  completed : Z;
  events : list Event
}.

Definition initial : Locals :=
  {| containers_data := ∅; completed := 0; events := [] |}.

Definition emit (ev : Event) : Py Locals unit :=
  PyMonad.modify (fun l =>
    {| containers_data := containers_data l; completed := completed l;
       events := events l ++ [ev] |}).

(** [containers_data[name] = metrics; completed += 1] *)
Definition record_result (name : string) (metrics : ContainerMetrics)
    : Py Locals Z :=
  fun l =>
    (Returned (completed l + 1),
     {| containers_data := <[name := metrics]> (containers_data l);
        completed := completed l + 1;
        events := events l |}).

(** The body of [for future in as_completed(...)]. *)
Definition collect_result (container_count : Z) (future : Future)
    : Py Locals unit :=
  PyMonad.try_except
    ('(name, metrics) ← PyMonad.lift (result future);
     done ← record_result name metrics;
     emit (LogDebugProgress done container_count))
    (fun e => emit (LogErrorContainer (container_name future) e)).

Fixpoint collect_results (container_count : Z) (futures : list Future)
    : Py Locals unit :=
  match futures with
  | [] => mret tt
  | future :: rest =>
      collect_result container_count future;;
      collect_results container_count rest
  end.

Definition _get_container_metrics (service : BlobService)
    : Py Locals (gmap string ContainerMetrics) :=
  returned_early ← PyMonad.try_except
    (container_list ← PyMonad.lift (list_containers service);
     let container_count := Z.of_nat (length container_list) in
     emit (LogInfoFound container_count);;
     if container_count =? 0
     then emit LogWarningNoContainers;; mret true
     else
       emit LogInfoProcessing;;
       collect_results container_count (as_completed service container_list);;
       mret false)
    (fun e => emit (LogErrorGetting e);; PyMonad.raise e);
  (if returned_early : bool then mret tt else emit LogInfoSummary);;
  l ← PyMonad.get;
  mret (containers_data l).

Definition get_container_metrics (service : BlobService)
    : Outcome (gmap string ContainerMetrics) * Locals :=
  _get_container_metrics service initial.

End FanOut.

(** ** Refresh Cache: [_get_cached_or_fresh_data], [_background_refresh] *)
Module Cache.
Import Scanner.

Inductive Field : Type := f_cache | f_cache_timestamp | f_refresh_in_progress.

(** What an operation does that another thread could observe. *)
Inductive Event : Type :=
  | Acquire               (* entering [with self._cache_lock] *)
  | Release               (* leaving it *)
  | Load (f : Field)
  | Store (f : Field)
  | Fetch                 (* a call of [_get_container_metrics] *)
  | ThreadStart.          (* [threading.Thread(...).start()] *)

(** The Prometheus instruments of the collector. *)
Record Instrumentation : Type := {
  cache_hits : Z;
  cache_misses : Z;
  cache_age : Z;
  last_azure_fetch_duration : Z;
  scrape_errors : Z;
  last_scrape_timestamp : Z;
  scrape_duration : list Z
}.

(** The collector object, with the clock it reads, the refresh threads
    that were started and have not finished, and the trace of events. *)
Record Collector : Type := {
  storage_account_name : string;
  resource_group_name : string;
  cache_ttl_seconds : Z;
  _cache : option (gmap string ContainerMetrics);
  _cache_timestamp : option Z;
  _refresh_in_progress : bool;
  instruments : Instrumentation;
  clock : Z;
  threads : nat;
  trace : list Event
}.

(** One run of [_get_container_metrics]: its result and how long it took
    (not negative, for a real run). *)
Record FetchRun : Type := {
  fetched : Outcome (gmap string ContainerMetrics);
  elapsed : Z
}.

Definition new_instruments : Instrumentation :=
  {| cache_hits := 0; cache_misses := 0; cache_age := 0;
     last_azure_fetch_duration := 0; scrape_errors := 0;
     last_scrape_timestamp := 0; scrape_duration := [] |}.

(** [__init__] *)
Definition init (account group : string) (ttl now : Z) : Collector :=
  {| storage_account_name := account; resource_group_name := group;
     cache_ttl_seconds := ttl;
     _cache := None; _cache_timestamp := None; _refresh_in_progress := false;
     instruments := new_instruments; clock := now; threads := 0%nat;
     trace := [] |}.

Definition with_cache v (s : Collector) : Collector :=
  {| storage_account_name := storage_account_name s;
     resource_group_name := resource_group_name s;
     cache_ttl_seconds := cache_ttl_seconds s;
     _cache := v; _cache_timestamp := _cache_timestamp s;
     _refresh_in_progress := _refresh_in_progress s;
     instruments := instruments s; clock := clock s; threads := threads s;
     trace := trace s |}.
Definition with_cache_timestamp v (s : Collector) : Collector :=
  {| storage_account_name := storage_account_name s;
     resource_group_name := resource_group_name s;
     cache_ttl_seconds := cache_ttl_seconds s;
     _cache := _cache s; _cache_timestamp := v;
     _refresh_in_progress := _refresh_in_progress s;
     instruments := instruments s; clock := clock s; threads := threads s;
     trace := trace s |}.
Definition with_refresh_in_progress v (s : Collector) : Collector :=
  {| storage_account_name := storage_account_name s;
     resource_group_name := resource_group_name s;
     cache_ttl_seconds := cache_ttl_seconds s;
     _cache := _cache s; _cache_timestamp := _cache_timestamp s;
     _refresh_in_progress := v;
     instruments := instruments s; clock := clock s; threads := threads s;
     trace := trace s |}.
Definition with_instruments v (s : Collector) : Collector :=
  {| storage_account_name := storage_account_name s;
     resource_group_name := resource_group_name s;
     cache_ttl_seconds := cache_ttl_seconds s;
     _cache := _cache s; _cache_timestamp := _cache_timestamp s;
     _refresh_in_progress := _refresh_in_progress s;
     instruments := v; clock := clock s; threads := threads s;
     trace := trace s |}.
Definition with_clock v (s : Collector) : Collector :=
  {| storage_account_name := storage_account_name s;
     resource_group_name := resource_group_name s;
     cache_ttl_seconds := cache_ttl_seconds s;
     _cache := _cache s; _cache_timestamp := _cache_timestamp s;
     _refresh_in_progress := _refresh_in_progress s;
     instruments := instruments s; clock := v; threads := threads s;
     trace := trace s |}.
Definition with_threads v (s : Collector) : Collector :=
  {| storage_account_name := storage_account_name s;
     resource_group_name := resource_group_name s;
     cache_ttl_seconds := cache_ttl_seconds s;
     _cache := _cache s; _cache_timestamp := _cache_timestamp s;
     _refresh_in_progress := _refresh_in_progress s;
     instruments := instruments s; clock := clock s; threads := v;
     trace := trace s |}.
Definition with_trace v (s : Collector) : Collector :=
  {| storage_account_name := storage_account_name s;
     resource_group_name := resource_group_name s;
     cache_ttl_seconds := cache_ttl_seconds s;
     _cache := _cache s; _cache_timestamp := _cache_timestamp s;
     _refresh_in_progress := _refresh_in_progress s;
     instruments := instruments s; clock := clock s; threads := threads s;
     trace := v |}.

Definition emit (ev : Event) : Py Collector unit :=
  PyMonad.modify (fun s => with_trace (trace s ++ [ev]) s).

(** Attribute reads and writes of the three guarded fields. *)
Definition load_cache : Py Collector (option (gmap string ContainerMetrics)) :=
  emit (Load f_cache);; s ← PyMonad.get; mret (_cache s).
Definition load_cache_timestamp : Py Collector (option Z) :=
  emit (Load f_cache_timestamp);; s ← PyMonad.get; mret (_cache_timestamp s).
Definition load_refresh_in_progress : Py Collector bool :=
  emit (Load f_refresh_in_progress);; s ← PyMonad.get; mret (_refresh_in_progress s).
Definition store_cache v : Py Collector unit :=
  emit (Store f_cache);; PyMonad.modify (with_cache v).
Definition store_cache_timestamp v : Py Collector unit :=
  emit (Store f_cache_timestamp);; PyMonad.modify (with_cache_timestamp v).
Definition store_refresh_in_progress v : Py Collector unit :=
  emit (Store f_refresh_in_progress);; PyMonad.modify (with_refresh_in_progress v).

(** [time.time()] *)
Definition time_time : Py Collector Z :=
  s ← PyMonad.get; mret (clock s).

(** [time.time() - self._cache_timestamp]; a [None] operand is a
    [TypeError]. *)
Definition since (now : Z) (timestamp : option Z) : Py Collector Z :=
  match timestamp with
  | Some t => mret (now - t)
  | None => PyMonad.raise TypeError
  end.

Definition instrument (f : Instrumentation -> Instrumentation) : Py Collector unit :=
  PyMonad.modify (fun s => with_instruments (f (instruments s)) s).

Definition cache_age_set (v : Z) : Py Collector unit :=
  instrument (fun i =>
    {| cache_hits := cache_hits i; cache_misses := cache_misses i;
       cache_age := v;
       last_azure_fetch_duration := last_azure_fetch_duration i;
       scrape_errors := scrape_errors i;
       last_scrape_timestamp := last_scrape_timestamp i;
       scrape_duration := scrape_duration i |}).
Definition cache_hits_inc : Py Collector unit :=
  instrument (fun i =>
    {| cache_hits := cache_hits i + 1; cache_misses := cache_misses i;
       cache_age := cache_age i;
       last_azure_fetch_duration := last_azure_fetch_duration i;
       scrape_errors := scrape_errors i;
       last_scrape_timestamp := last_scrape_timestamp i;
       scrape_duration := scrape_duration i |}).
Definition cache_misses_inc : Py Collector unit :=
  instrument (fun i =>
    {| cache_hits := cache_hits i; cache_misses := cache_misses i + 1;
       cache_age := cache_age i;
       last_azure_fetch_duration := last_azure_fetch_duration i;
       scrape_errors := scrape_errors i;
       last_scrape_timestamp := last_scrape_timestamp i;
       scrape_duration := scrape_duration i |}).
Definition last_azure_fetch_duration_set (v : Z) : Py Collector unit :=
  instrument (fun i =>
    {| cache_hits := cache_hits i; cache_misses := cache_misses i;
       cache_age := cache_age i;
       last_azure_fetch_duration := v;
       scrape_errors := scrape_errors i;
       last_scrape_timestamp := last_scrape_timestamp i;
       scrape_duration := scrape_duration i |}).
Definition scrape_errors_inc : Py Collector unit :=
  instrument (fun i =>
    {| cache_hits := cache_hits i; cache_misses := cache_misses i;
       cache_age := cache_age i;
       last_azure_fetch_duration := last_azure_fetch_duration i;
       scrape_errors := scrape_errors i + 1;
       last_scrape_timestamp := last_scrape_timestamp i;
       scrape_duration := scrape_duration i |}).
Definition scrape_done (now duration : Z) : Py Collector unit :=
  instrument (fun i =>
    {| cache_hits := cache_hits i; cache_misses := cache_misses i;
       cache_age := cache_age i;
       last_azure_fetch_duration := last_azure_fetch_duration i;
       scrape_errors := scrape_errors i;
       last_scrape_timestamp := now;
       scrape_duration := scrape_duration i ++ [duration] |}).

(** [with self._cache_lock: body]; the lock is released however the
    body ends. *)
Definition with_cache_lock {A} (body : Py Collector A) : Py Collector A :=
  fun s =>
    let '(r, s') := body (with_trace (trace s ++ [Acquire]) s) in
    (r, with_trace (trace s' ++ [Release]) s').

(** The call of [_get_container_metrics] as the cache sees it. *)
Definition _get_container_metrics (run : FetchRun)
    : Py Collector (gmap string ContainerMetrics) :=
  emit Fetch;;
  PyMonad.modify (fun s => with_clock (clock s + elapsed run) s);;
  PyMonad.lift (fetched run).

(** [threading.Thread(target=self._background_refresh, daemon=True).start()] *)
Definition thread_start : Py Collector unit :=
  emit ThreadStart;;
  PyMonad.modify (fun s => with_threads (S (threads s)) s).

Definition _is_cache_valid : Py Collector bool :=
  cache ← load_cache;
  match cache with
  | None => mret false
  | Some _ =>
      timestamp ← load_cache_timestamp;
      match timestamp with
      | None => mret false
      | Some t =>
          now ← time_time;
          s ← PyMonad.get;
          mret (now - t <? cache_ttl_seconds s)
      end
  end.

Definition _get_cached_or_fresh_data (run : FetchRun)
    : Py Collector (option (gmap string ContainerMetrics)) :=
  with_cache_lock (
    valid ← _is_cache_valid;
    if valid : bool then
      now ← time_time;
      timestamp ← load_cache_timestamp;
      age ← since now timestamp;
      cache_age_set age;;
      cache_hits_inc;;
      load_cache
    else
      cache_misses_inc;;
      cache ← load_cache;
      match cache with
      | None =>
          fetch_start ← time_time;
          containers_data ← _get_container_metrics run;
          now ← time_time;
          last_azure_fetch_duration_set (now - fetch_start);;
          store_cache (Some containers_data);;
          now ← time_time;
          store_cache_timestamp (Some now);;
          cache_age_set 0;;
          mret (Some containers_data)
      | Some _ =>
          refreshing ← load_refresh_in_progress;
          (if refreshing : bool then mret tt
           else store_refresh_in_progress true;; thread_start);;
          now ← time_time;
          timestamp ← load_cache_timestamp;
          age ← since now timestamp;
          cache_age_set age;;
          load_cache
      end).

Definition _background_refresh (run : FetchRun) : Py Collector unit :=
  PyMonad.try_except
    (start_time ← time_time;
     containers_data ← _get_container_metrics run;
     now ← time_time;
     last_azure_fetch_duration_set (now - start_time);;
     with_cache_lock (
       store_cache (Some containers_data);;
       now ← time_time;
       store_cache_timestamp (Some now);;
       store_refresh_in_progress false;;
       cache_age_set 0))
    (fun e => with_cache_lock (store_refresh_in_progress false)).

(** *** The collector among its threads

    Every access to the three guarded fields sits inside the lock, so a
    scrape and the locked region of a refresh thread are atomic with
    respect to each other; a refresh thread's fetch touches none of the
    guarded fields, so the thread is scheduled as one step, at the moment
    its fetch is done. *)
Inductive Action : Type :=
  | Tick (d : Z)                 (* time passes *)
  | Scrape (run : FetchRun)      (* a call of [_get_cached_or_fresh_data] *)
  | Refresh (run : FetchRun).    (* a started refresh thread runs *)

Inductive Observation : Type :=
  | Silent
  | Served (r : Outcome (option (gmap string ContainerMetrics))).

Definition step (a : Action) (s : Collector) : option (Collector * Observation) :=
  match a with
  | Tick d => if 0 <=? d then Some (with_clock (clock s + d) s, Silent) else None
  | Scrape run =>
      let '(r, s') := _get_cached_or_fresh_data run s in Some (s', Served r)
  | Refresh run =>
      match threads s with
      | O => None
      | S n =>
          let '(_, s') := _background_refresh run s in
          Some (with_threads (Nat.pred (threads s')) s', Silent)
      end
  end.

Fixpoint exec (actions : list Action) (s : Collector)
    : option (Collector * list Observation) :=
  match actions with
  | [] => Some (s, [])
  | a :: rest =>
      match step a s with
      | None => None
      | Some (s', o) =>
          match exec rest s' with
          | None => None
          | Some (s'', os) => Some (s'', o :: os)
          end
      end
  end.


End Cache.

(** ** Metrics Projector: [collect] *)
Module Projector.
Import Scanner Cache.

Record GaugeMetricFamily : Type := {
  name : string;
  labels : list string;
  samples : list (list string * Z)
}.

Definition gauge (name : string) (labels : list string) : GaugeMetricFamily :=
  {| name := name; labels := labels; samples := [] |}.

Definition add_metric (label_values : list string) (value : Z)
    (family : GaugeMetricFamily) : GaugeMetricFamily :=
  {| name := name family; labels := labels family;
     samples := samples family ++ [(label_values, value)] |}.

Definition container_labels : list string :=
  ["storage_account"; "container_name"; "resource_group"]%string.
Definition account_labels : list string :=
  ["storage_account"; "resource_group"]%string.

(** The eight per-container families, in the order in which they are
    created and yielded, each with the dict key it reports. *)
Definition per_container : list (string * (ContainerMetrics -> Z)) :=
  [ ("azure_storage_container_size_bytes", Metrics.size_bytes);
    ("azure_storage_container_blob_count", Metrics.blob_count);
    ("azure_storage_container_deleted_size_bytes", Metrics.deleted_size_bytes);
    ("azure_storage_container_deleted_blob_count", Metrics.deleted_blob_count);
    ("azure_storage_container_snapshot_size_bytes", Metrics.snapshot_size_bytes);
    ("azure_storage_container_snapshot_count", Metrics.snapshot_count);
    ("azure_storage_container_version_size_bytes", Metrics.version_size_bytes);
    ("azure_storage_container_version_count", Metrics.version_count) ]%string.

(** The four running totals of the loop. *)
Record Totals : Type := {
  total_size : Z;
  total_deleted_size : Z;
  total_snapshot_size : Z;
  total_version_size : Z
}.

Record Loop : Type := {
  families : list GaugeMetricFamily;
  totals : Totals
}.

Definition before_loop : Loop :=
  {| families := (fun key => gauge key.1 container_labels) <$> per_container;
     totals := {| total_size := 0; total_deleted_size := 0;
                  total_snapshot_size := 0; total_version_size := 0 |} |}.

(** The body of [for container_name, metrics in containers_data.items()]. *)
Definition loop_body (account group : string) (st : Loop)
    (item : string * ContainerMetrics) : Loop :=
  let '(container_name, metrics) := item in
  {| families :=
       zip_with
         (fun family key =>
            add_metric [account; container_name; group] (key.2 metrics) family)
         (families st) per_container;
     totals :=
       {| total_size := total_size (totals st) + Metrics.size_bytes metrics;
          total_deleted_size :=
            total_deleted_size (totals st) + Metrics.deleted_size_bytes metrics;
          total_snapshot_size :=
            total_snapshot_size (totals st) + Metrics.snapshot_size_bytes metrics;
          total_version_size :=
            total_version_size (totals st) + Metrics.version_size_bytes metrics |} |}.

(** The four account-level families built after the loop. *)
Definition account_families (account group : string) (t : Totals)
    : list GaugeMetricFamily :=
  [ add_metric [account; group] (total_size t)
      (gauge "azure_storage_account_total_size_bytes" account_labels);
    add_metric [account; group] (total_deleted_size t)
      (gauge "azure_storage_account_total_deleted_size_bytes" account_labels);
    add_metric [account; group] (total_size t + total_deleted_size t)
      (gauge "azure_storage_account_total_size_with_deleted_bytes" account_labels);
    add_metric [account; group]
      (total_size t + total_deleted_size t
       + total_snapshot_size t + total_version_size t)
      (gauge "azure_storage_account_total_size_all_bytes" account_labels) ]%string.

(** Everything [collect] yields for a snapshot. The items of the dict
    are taken in the order of [map_to_list]. *)
Definition metric_families (account group : string)
    (containers_data : gmap string ContainerMetrics) : list GaugeMetricFamily :=
  let st := foldl (loop_body account group) before_loop
              (map_to_list containers_data) in
  families st ++ account_families account group (totals st).

Definition collect (run : FetchRun) : Py Collector (list GaugeMetricFamily) :=
  start_time ← time_time;
  PyMonad.try_except
    (containers_data ← _get_cached_or_fresh_data run;
     match containers_data with
     | None => PyMonad.raise AttributeError
     | Some data =>
         self ← PyMonad.get;
         let yielded :=
           metric_families (storage_account_name self)
             (resource_group_name self) data in
         now ← time_time;
         scrape_done now (now - start_time);;
         mret yielded
     end)
    (fun e => scrape_errors_inc;; PyMonad.raise e).

(** The value of the single sample of the family called [metric]. *)
Definition account_value (metric : string) (yielded : list GaugeMetricFamily)
    : option Z :=
  match filter (fun family => name family = metric) yielded with
  | [family] =>
      match samples family with
      | [(_, value)] => Some value
      | _ => None
      end
  | _ => None
  end.

(** The sum of one field over the containers of a snapshot. *)
Definition sum_of (key : ContainerMetrics -> Z)
    (containers_data : gmap string ContainerMetrics) : Z :=
  map_fold (fun _ metrics acc => key metrics + acc) 0 containers_data.

End Projector.

(** ** Vocabulary of the scanner's specification *)
Module ScannerSpec.
Import Scanner.

(** The records a listing yields before it ends, and how it ends. *)
Fixpoint yielded (listing : ItemPaged) : list BlobProperties :=
  match listing with
  | Next blob rest => blob :: yielded rest
  | _ => []
  end.

Fixpoint failure (listing : ItemPaged) : option Exn :=
  match listing with
  | Next _ rest => failure rest
  | Fails e => Some e
  | Exhausted => None
  end.

(** A listing from its records and its end. *)
Fixpoint paged (blobs : list BlobProperties) (tail : ItemPaged) : ItemPaged :=
  match blobs with
  | [] => tail
  | blob :: rest => Next blob (paged rest tail)
  end.

Definition full_include : list Include := [inc_deleted; inc_snapshots; inc_versions].
Definition reduced_include : list Include := [inc_deleted].

(** The records the limit lets through. *)
Definition within_limit (cfg : Config) (blobs : list BlobProperties)
    : list BlobProperties :=
  if 0 <? max_blobs_per_container cfg
  then take (Z.to_nat (max_blobs_per_container cfg)) blobs
  else blobs.

(** The failure of a listing is met when the limit does not stop the
    loop before it. *)
Definition failure_met (cfg : Config) (listing : ItemPaged) : option Exn :=
  if (max_blobs_per_container cfg <=? 0)
     || (Z.of_nat (length (yielded listing)) <=? max_blobs_per_container cfg)
  then failure listing
  else None.

Inductive Bucket : Type := Deleted | Snapshot | Version | Active.

#[global] Instance Bucket_eq_dec : EqDecision Bucket.
Proof. solve_decision. Defined.

(** deleted > snapshot > version > active *)
Definition classify (blob : BlobProperties) : Bucket :=
  if is_deleted blob then Deleted
  else if is_snapshot blob then Snapshot
  else if is_version blob then Version
  else Active.

(** deleted > active, the two buckets of the reduced listing *)
Definition classify_basic (blob : BlobProperties) : Bucket :=
  if is_deleted blob then Deleted else Active.

Definition count_in (class : BlobProperties -> Bucket) (bucket : Bucket)
    (blobs : list BlobProperties) : Z :=
  Z.of_nat (length (filter (fun blob => class blob = bucket) blobs)).

(** The bytes of a bucket: missing sizes count for nothing. *)
Definition bytes_in (class : BlobProperties -> Bucket) (bucket : Bucket)
    (blobs : list BlobProperties) : Z :=
  foldr Z.add 0
    ((fun blob => default 0 (size blob))
       <$> filter (fun blob => class blob = bucket) blobs).

(** The sums of a list of records under a classification. *)
Definition sums (class : BlobProperties -> Bucket) (blobs : list BlobProperties)
    : Counters :=
  {| total_size := bytes_in class Active blobs;
     blob_count := count_in class Active blobs;
     deleted_size := bytes_in class Deleted blobs;
     deleted_count := count_in class Deleted blobs;
     snapshot_size := bytes_in class Snapshot blobs;
     snapshot_count := count_in class Snapshot blobs;
     version_size := bytes_in class Version blobs;
     version_count := count_in class Version blobs |}.

Definition plus (a b : Counters) : Counters :=
  {| total_size := total_size a + total_size b;
     blob_count := blob_count a + blob_count b;
     deleted_size := deleted_size a + deleted_size b;
     deleted_count := deleted_count a + deleted_count b;
     snapshot_size := snapshot_size a + snapshot_size b;
     snapshot_count := snapshot_count a + snapshot_count b;
     version_size := version_size a + version_size b;
     version_count := version_count a + version_count b |}.

(** The [list_blobs] calls among the events of a run. *)
Definition list_calls (evs : list Event) : list (list Include) :=
  omap (fun ev => match ev with ListBlobs inc => Some inc | _ => None end) evs.

(** A statement sequence that calls [list_blobs] no further. *)
Definition quiet {A} (m : Py Locals A) : Prop :=
  forall st, list_calls (events (m st).2) = list_calls (events st).

(** The counters before the first record. *)
Definition zero : Counters := counters initial.

(** Counters that a float holds exactly. *)
Definition small (c : Counters) : Prop :=
  Forall (fun x => - 2 ^ 53 < x < 2 ^ 53)
    [total_size c; blob_count c; deleted_size c; deleted_count c;
     snapshot_size c; snapshot_count c; version_size c; version_count c].

(** The counters a call holds when it reaches the summary. *)
Definition counted (cfg : Config) (client : ContainerClient) : Counters :=
  counters (count_blobs cfg client initial).2.

(** The exception the summary line raises on given counters, if any. *)
Definition summary_error (c : Counters) : option Exn :=
  match (log_summary {| counters := c; events := [] |}).1 with
  | Returned _ => None
  | Raised e => Some e
  end.

(** Byte totals the summary line can divide: not negative and below
    [2^1023]. *)
Definition loggable (c : Counters) : Prop :=
  Forall (fun x => 0 <= x < 2 ^ 1023)
    [total_size c; deleted_size c; snapshot_size c; version_size c].

(** A blob service that hands out the same client for every container. *)
Definition serving (client : ContainerClient) : BlobServiceClient :=
  {| get_container_client := fun _ => Returned client |}.

(** An active blob of the given size. *)
Definition active_blob (bytes : Z) : BlobProperties :=
  {| size := Some bytes; deleted := Some false; snapshot := None;
     version_id := None; has_is_current_version := true |}.

Definition deleted_blob (bytes : Z) : BlobProperties :=
  {| size := Some bytes; deleted := Some true; snapshot := None;
     version_id := None; has_is_current_version := true |}.

(** A container of four active blobs of ten bytes each. *)
Definition four_blobs : ContainerClient :=
  fun _ => paged (replicate 4 (active_blob 10)) Exhausted.


(** A container of one active blob of [2^1100] bytes. *)
Definition huge_blob : ContainerClient :=
  fun _ => paged [active_blob (2 ^ 1100)] Exhausted.

(** A container whose full listing fails after one record and whose
    reduced listing yields that record again, and a deleted one. *)
Definition flaky_client : ContainerClient :=
  fun include =>
    match include with
    | [inc_deleted] => paged [active_blob 10; deleted_blob 5] Exhausted
    | _ => paged [active_blob 10] (Fails (AzureError 500))
    end.

End ScannerSpec.

(** ** Vocabulary of the coordinator's specification *)
Module FanOutSpec.
Import Scanner FanOut.

(** The dict after the results of [futures] are merged into [data]. *)
Definition merged (futures : list Future) (data : gmap string ContainerMetrics)
    : gmap string ContainerMetrics :=
  foldl (fun data future =>
           match result future with
           | Returned (name, metrics) => <[name := metrics]> data
           | Raised _ => data
           end) data futures.


Definition some_metrics (bytes : Z) : ContainerMetrics :=
  metrics_of (ScannerSpec.sums ScannerSpec.classify [ScannerSpec.active_blob bytes]).


End FanOutSpec.

(** ** Vocabulary of the cache's specification *)
Module CacheSpec.
Import Scanner Cache.

#[global] Instance Field_eq_dec : EqDecision Field.
Proof. solve_decision. Defined.

#[global] Instance Event_eq_dec : EqDecision Event.
Proof. solve_decision. Defined.

(** A refresh thread is alive exactly when the flag says so. *)
Definition one_refresh (s : Collector) : Prop :=
  threads s = if _refresh_in_progress s then 1%nat else 0%nat.

(** The states of the cache, from the snapshot's age. *)
Definition fresh (s : Collector) (snapshot : gmap string ContainerMetrics)
    (t : Z) : Prop :=
  _cache s = Some snapshot /\ _cache_timestamp s = Some t
  /\ clock s - t < cache_ttl_seconds s.

Definition stale (s : Collector) (snapshot : gmap string ContainerMetrics)
    (t : Z) : Prop :=
  _cache s = Some snapshot /\ _cache_timestamp s = Some t
  /\ cache_ttl_seconds s <= clock s - t.

(** How often an event occurs in a trace. *)
Definition occurrences (ev : Event) (tr : list Event) : nat :=
  length (filter (fun ev' => ev' = ev) tr).

(** The events an operation adds to the trace of [s]. *)
Definition added {A} (op : Py Collector A) (s : Collector) : list Event :=
  drop (length (trace s)) (trace (op s).2).



(** A sequence of scrapes, each after some time has passed. *)
Definition scrapes (reads : list (Z * FetchRun)) : list Action :=
  reads ≫= (fun read => [Tick read.1; Scrape read.2]).

(** A snapshot with one container. *)
Definition one_container (name : string) (active deleted : Z)
    : gmap string ContainerMetrics :=
  {[ name := {| Metrics.size_bytes := active; Metrics.blob_count := 1;
                Metrics.deleted_size_bytes := deleted; Metrics.deleted_blob_count := 1;
                Metrics.snapshot_size_bytes := 0; Metrics.snapshot_count := 0;
                Metrics.version_size_bytes := 0; Metrics.version_count := 0 |} ]}.

(** A collector whose snapshot was taken at time 100 and whose clock
    shows [now]; the TTL is 900. *)
Definition cached_at_100 (now : Z) (refreshing : bool) : Collector :=
  {| storage_account_name := "account"; resource_group_name := "group";
     cache_ttl_seconds := 900;
     _cache := Some (one_container "logs" 10 5);
     _cache_timestamp := Some 100;
     _refresh_in_progress := refreshing;
     instruments := new_instruments; clock := now;
     threads := if refreshing then 1%nat else 0%nat;
     trace := [] |}.

(** A fetch that takes a minute and succeeds. *)
Definition slow_ok : FetchRun :=
  {| fetched := Returned (one_container "logs" 20 5); elapsed := 60 |}.

End CacheSpec.

(** ** Vocabulary of the projector's specification *)
Module ProjectorSpec.
Import Scanner Projector.

Definition family_names : list string := fst <$> per_container.

(** The sum of one field over the items of a dict. *)
Definition items_sum (key : ContainerMetrics -> Z)
    (items : list (string * ContainerMetrics)) : Z :=
  foldr (fun item acc => key item.2 + acc) 0 items.

End ProjectorSpec.

(** ** Further vocabulary of the scanner's specification *)
Module ScannerLaws.
Import Scanner ScannerSpec.

(** [total_bytes] of the summary: the four byte totals together. *)
Definition total_bytes (metrics : ContainerMetrics) : Z :=
  Metrics.size_bytes metrics + Metrics.deleted_size_bytes metrics
  + Metrics.snapshot_size_bytes metrics + Metrics.version_size_bytes metrics.





(** A container of a thousand blobs, the last of which has no size. *)
Definition thousand_blobs : ContainerClient :=
  fun _ =>
    paged (replicate 999 (active_blob 4096)
           ++ [{| size := None; deleted := Some true; snapshot := None;
                  version_id := None; has_is_current_version := true |}])
      Exhausted.

(** The same container listed in another order. *)
Definition thousand_blobs_reversed : ContainerClient :=
  fun include => paged (reverse (yielded (thousand_blobs include))) Exhausted.


End ScannerLaws.

(** ** The accuracy script: [test_blob_counting] of [test_accuracy.py] *)
Module TestAccuracy.
Import Scanner.

(** The script's counters, and its verdict once it is printed. *)
Record Vars : Type := {
  active_count : Z;
  active_size : Z;
  active_count2 : Z;
  active_size2 : Z;
  deleted_count2 : Z;
  deleted_size2 : Z;
  accurate : option bool
}.

Definition initial : Vars :=
  {| active_count := 0; active_size := 0;
     active_count2 := 0; active_size2 := 0;
     deleted_count2 := 0; deleted_size2 := 0;
     accurate := None |}.







End TestAccuracy.

(** ** Further vocabulary of the coordinator's specification *)
Module FanOutLaws.
Import Scanner FanOut FanOutSpec.

(** A result that is returned carries the name the scan was submitted
    for, as [_process_single_container] returns [container_name]. *)
Definition well_named (future : Future) : Prop :=
  match result future with
  | Returned (name, _) => name = container_name future
  | Raised _ => True
  end.

Definition returned (future : Future) : Prop :=
  match result future with Returned _ => True | Raised _ => False end.

#[global] Instance returned_dec future : Decision (returned future).
Proof. unfold returned. destruct (result future); apply _. Defined.

(** The futures the loop waits for: none when no container is listed. *)
Definition awaited (service : BlobService) (names : list string) : list Future :=
  match names with
  | [] => []
  | _ => as_completed service names
  end.


(** Four containers, two of whose scans raise. *)
Definition four_containers : BlobService :=
  {| list_containers := Returned ["a"; "b"; "c"; "d"]%string;
     as_completed := fun _ =>
       [ {| container_name := "c";
            result := Returned ("c"%string, some_metrics 3) |};
         {| container_name := "a"; result := Raised (AzureError 404) |};
         {| container_name := "d"; result := Raised (AzureError 500) |};
         {| container_name := "b";
            result := Returned ("b"%string, some_metrics 2) |} ] |}.

(** The same account with the scans completing in another order. *)
Definition four_containers_reordered : BlobService :=
  {| list_containers := Returned ["a"; "b"; "c"; "d"]%string;
     as_completed := fun names => reverse (as_completed four_containers names) |}.


End FanOutLaws.

(** ** Further vocabulary of the cache's specification *)
Module CacheLaws.
Import Scanner Cache CacheSpec.

(** The snapshot and its timestamp are set together. *)
Definition consistent (s : Collector) : Prop :=
  _cache s = None <-> _cache_timestamp s = None.

(** The scrapes counted by the hit and miss counters. *)
Definition lookups (s : Collector) : Z :=
  cache_hits (instruments s) + cache_misses (instruments s).

Definition is_scrape (a : Action) : Prop :=
  match a with Scrape _ => True | _ => False end.

#[global] Instance is_scrape_dec a : Decision (is_scrape a).
Proof. destruct a; apply _. Defined.

Definition scrape_count (actions : list Action) : Z :=
  Z.of_nat (length (filter is_scrape actions)).

(** The events of a scrape that is served from the cache at once. *)
Definition hit_events : list Event :=
  [Acquire; Load f_cache; Load f_cache_timestamp; Load f_cache_timestamp;
   Load f_cache; Release].

(** A fetch that fails after ten seconds. *)
Definition slow_failure : FetchRun :=
  {| fetched := Raised (AzureError 503); elapsed := 10 |}.

(** The fetch made of the coordinator's run on an account. *)
Definition fetch_of (service : FanOut.BlobService) (seconds : Z) : FetchRun :=
  {| fetched := (FanOut.get_container_metrics service).1; elapsed := seconds |}.

End CacheLaws.

(** ** Further vocabulary of the projector's specification *)
Module ProjectorLaws.
Import Scanner Cache Projector.

(** The sample of one container in the family that reports [key]. *)
Definition sample_of (account group : string) (key : ContainerMetrics -> Z)
    (item : string * ContainerMetrics) : list string * Z :=
  ([account; item.1; group], key item.2).

(** The family that reports [key] for every container of a snapshot. *)
Definition container_family (account group : string)
    (containers_data : gmap string ContainerMetrics)
    (key : string * (ContainerMetrics -> Z)) : GaugeMetricFamily :=
  {| name := key.1; labels := container_labels;
     samples := sample_of account group key.2 <$> map_to_list containers_data |}.

(** A family after the samples of [items] are added to it. *)
Definition extended (account group : string)
    (items : list (string * ContainerMetrics))
    (family : GaugeMetricFamily) (key : string * (ContainerMetrics -> Z))
    : GaugeMetricFamily :=
  {| name := name family; labels := labels family;
     samples := samples family ++ (sample_of account group key.2 <$> items) |}.

(** The scrape errors counted so far. *)
Definition errors (s : Collector) : Z := scrape_errors (instruments s).

End ProjectorLaws.

(** ** The parts together: scans, coordinator, cache, projector *)
Module Exporter.
Import Scanner FanOut Cache.

(** The future of a scan that runs [_process_single_container]. *)
Definition scanned (cfg : Config) (blob_service_client : BlobServiceClient)
    (name : string) : Future :=
  {| container_name := name;
     result :=
       (_process_single_container cfg blob_service_client name Scanner.initial).1 |}.


(** A storage account: its container names, the client that hands out the
    container clients, and the order in which the scans complete. *)
Definition account (cfg : Config) (names : list string)
    (blob_service_client : BlobServiceClient)
    (completion : list string -> list string) : BlobService :=
  {| list_containers := Returned names;
     as_completed :=
       fun submitted => scanned cfg blob_service_client <$> completion submitted |}.

(** An account whose container listing fails. *)
Definition unreachable (e : Exn) : BlobService :=
  {| list_containers := Raised e; as_completed := fun _ => [] |}.



End Exporter.

(** * Proofs *)

(** Unfolding the monad. *)
Ltac py_unfold :=
  cbv [mbind mret Py_bind Py_ret PyMonad.bind PyMonad.ret PyMonad.raise
       PyMonad.get PyMonad.modify PyMonad.try_except PyMonad.lift].

(** ** Python numbers *)
Section PyNumFacts.
Import PyNum.

Lemma div_eucl_div_mod a b : Z.div_eucl a b = (a / b, a mod b).
Proof. unfold Z.div, Z.modulo. now destruct (Z.div_eucl a b). Qed.

(** [m / m] is [1.0]. *)
Lemma truediv_self m : 0 < m -> truediv m m = Returned (PyFloat one).
Proof.
  destruct m as [|p|p]; try lia. intros _.
  unfold truediv.
  change (Z.to_pos (Z.abs (Z.pos p))) with p.
  change (Z.pos p <? 0) with false.
  unfold SFdiv, SFdiv_core_binary.
  set (D := Zdigits2 (Z.pos p)).
  replace (D + 0 - (D + 0)) with 0 by lia.
  change (Z.min (fexp prec emax 0) (0 - 0)) with (-53).
  change (0 - 0 - -53) with 53.
  cbv iota beta.
  rewrite div_eucl_div_mod, Z.shiftl_mul_pow2 by lia.
  rewrite (Z.mul_comm (Z.pos p)), Z_div_mult, Z_mod_mult by lia.
  replace (new_location (Z.pos p) 0) with loc_Exact
    by (unfold new_location; destruct (Z.even (Z.pos p)); reflexivity).
  vm_compute. reflexivity.
Qed.

Lemma iter_xO_mul n : forall p, Z.pos (Pos.iter xO p n) = Z.pos p * 2 ^ Z.pos n.
Proof.
  induction n as [|n IH] using Pos.peano_ind; intros p.
  - cbn. lia.
  - rewrite Pos.iter_succ, Pos2Z.inj_xO, IH, Pos2Z.inj_succ, Z.pow_succ_r by lia.
    lia.
Qed.

Lemma digits_iter_xO n : forall p,
  Z.pos (digits2_pos (Pos.iter xO p n)) = Z.pos (digits2_pos p) + Z.pos n.
Proof.
  induction n as [|n IH] using Pos.peano_ind; intros p.
  - cbn. lia.
  - rewrite Pos.iter_succ. cbn [digits2_pos]. rewrite Pos2Z.inj_succ, IH. lia.
Qed.

Lemma digits_bound p : Z.pos p < 2 ^ 53 -> Z.pos (digits2_pos p) <= 53.
Proof.
  intros Hlt.
  assert (forall q, 2 ^ Z.pos (digits2_pos q) <= 2 * Z.pos q) as Hsize.
  { induction q as [q IH|q IH|]; cbn [digits2_pos];
      rewrite ?Pos2Z.inj_succ, ?Z.pow_succ_r by lia; lia. }
  specialize (Hsize p).
  destruct (Z.le_gt_cases (Z.pos (digits2_pos p)) 53) as [|Hgt]; [assumption|].
  assert (2 ^ 54 <= 2 ^ Z.pos (digits2_pos p)) by (apply Z.pow_le_mono_r; lia).
  lia.
Qed.

(** A mantissa of 53 digits with an exponent in range is not rounded. *)
Lemma binary_round_aux_canonical s m e :
  Z.pos (digits2_pos m) = 53 -> -1074 <= e <= 971 ->
  binary_round_aux prec emax s (Z.pos m) e loc_Exact = S754_finite s m e.
Proof.
  intros Hdig He.
  assert (shr_fexp prec emax (Z.pos m) e loc_Exact
          = ({| shr_m := Z.pos m; shr_r := false; shr_s := false |}, e))
    as Hshr.
  { unfold shr_fexp, Zdigits2, fexp, emin, prec, emax. rewrite Hdig.
    replace (Z.max (53 + e - 53) (3 - 1024 - 53) - e) with 0 by lia.
    reflexivity. }
  unfold binary_round_aux. rewrite Hshr. cbn [shr_m loc_of_shr_record
    round_nearest_even]. rewrite Hshr. cbn [shr_m].
  unfold prec, emax. destruct (Z.leb_spec e (1024 - 53)); [reflexivity|lia].
Qed.

(** [float(z)] is exact below [2^53]. *)
Lemma float_of_int_exact s p :
  Z.pos p < 2 ^ 53 ->
  exists m e,
    binary_round prec emax s p 0 = S754_finite s m e
    /\ Z.pos (digits2_pos m) = 53 /\ -52 <= e <= 0
    /\ Z.pos m = Z.pos p * 2 ^ (- e).
Proof.
  intros Hlt. pose proof (digits_bound p Hlt) as Hdig.
  unfold binary_round, shl_align, fexp, emin, prec, emax.
  replace (Z.max (Z.pos (digits2_pos p) + 0 - 53) (3 - 1024 - 53) - 0)
    with (Z.pos (digits2_pos p) - 53) by lia.
  replace (Z.max (Z.pos (digits2_pos p) + 0 - 53) (3 - 1024 - 53))
    with (Z.pos (digits2_pos p) - 53) by lia.
  destruct (Z.pos (digits2_pos p) - 53) as [|d|d] eqn:Hd; try lia.
  - exists p, 0. split; [|split; [lia|split; [lia|cbn; lia]]].
    apply (binary_round_aux_canonical s p 0); lia.
  - exists (Pos.iter xO p d), (Z.neg d).
    assert (Z.pos (digits2_pos (Pos.iter xO p d)) = 53) as Hdig'
      by (rewrite digits_iter_xO; lia).
    split; [|split; [exact Hdig'|split; [lia|]]].
    + apply (binary_round_aux_canonical s _ (Z.neg d)); [exact Hdig'|lia].
    + rewrite iter_xO_mul. reflexivity.
Qed.

(** Multiplying a 53-digit float by [1.0] changes nothing. *)
Lemma mul_one s m e :
  Z.pos (digits2_pos m) = 53 -> -52 <= e <= 0 ->
  SFmul prec emax (S754_finite s m e) one = S754_finite s m e.
Proof.
  intros Hdig He. unfold one, SFmul.
  replace (xorb s false) with s by (now destruct s).
  rewrite (Pos.mul_comm m).
  change (4503599627370496 * m)%positive with (Pos.iter xO m 52).
  unfold binary_round_aux.
  assert (shr_fexp prec emax (Z.pos (Pos.iter xO m 52)) (e + -52) loc_Exact
          = ({| shr_m := Z.pos m; shr_r := false; shr_s := false |}, e)) as ->.
  { unfold shr_fexp, Zdigits2, fexp, emin, prec, emax.
    rewrite digits_iter_xO, Hdig.
    replace (Z.max (53 + 52 + (e + -52) - 53) (3 - 1024 - 53) - (e + -52))
      with 52 by lia.
    unfold shr. replace (e + -52 + 52) with e by lia. reflexivity. }
  cbn [shr_m loc_of_shr_record round_nearest_even].
  assert (shr_fexp prec emax (Z.pos m) e loc_Exact
          = ({| shr_m := Z.pos m; shr_r := false; shr_s := false |}, e)) as ->.
  { unfold shr_fexp, Zdigits2, fexp, emin, prec, emax. rewrite Hdig.
    replace (Z.max (53 + e - 53) (3 - 1024 - 53) - e) with 0 by lia.
    reflexivity. }
  cbn [shr_m]. unfold prec, emax.
  destruct (Z.leb_spec e (1024 - 53)); [reflexivity|lia].
Qed.

(** [int(x * 1.0) = x] below [2^53]. *)
Lemma int_mul_one x :
  - 2 ^ 53 < x < 2 ^ 53 -> int_mul x (PyFloat one) = Returned x.
Proof.
  intros [Hlo Hhi]. unfold int_mul, mul_int, float_of_int, binary_normalize.
  destruct x as [|p|p].
  - reflexivity.
  - destruct (float_of_int_exact false p) as (m & e & -> & Hdig & He & Hm);
      [exact Hhi|].
    rewrite mul_one by assumption. cbn [int].
    destruct (Z.leb_spec 0 e).
    + assert (e = 0) as -> by lia. change (- 0) with 0 in Hm.
      rewrite Z.pow_0_r, Z.mul_1_r in Hm. rewrite Z.shiftl_0_r, Hm. reflexivity.
    + rewrite Z.shiftr_div_pow2, Hm, Z.div_mul by lia. reflexivity.
  - destruct (float_of_int_exact true p) as (m & e & -> & Hdig & He & Hm);
      [change (Z.neg p) with (- Z.pos p) in Hlo; lia|].
    rewrite mul_one by assumption. cbn [int].
    destruct (Z.leb_spec 0 e).
    + assert (e = 0) as -> by lia. change (- 0) with 0 in Hm.
      rewrite Z.pow_0_r, Z.mul_1_r in Hm. rewrite Z.shiftl_0_r, Hm. reflexivity.
    + rewrite Z.shiftr_div_pow2, Hm, Z.div_mul by lia. reflexivity.
Qed.

(** *** A quotient below [2^1023] is a finite float *)

Lemma digits2_pos_lower p : 2 ^ Z.pos (digits2_pos p) <= 2 * Z.pos p.
Proof.
  induction p as [q IH|q IH|]; cbn [digits2_pos];
    rewrite ?Pos2Z.inj_succ, ?Z.pow_succ_r by lia; lia.
Qed.

Lemma Zdigits2_le m k : 0 <= m -> 0 <= k -> m < 2 ^ k -> Zdigits2 m <= k.
Proof.
  intros Hm Hk Hlt. destruct m as [|p|p]; cbn [Zdigits2]; try lia.
  pose proof (digits2_pos_lower p) as Hlow.
  destruct (Z.le_gt_cases (Z.pos (digits2_pos p)) k) as [|Hgt]; [assumption|].
  assert (2 ^ Z.succ k <= 2 ^ Z.pos (digits2_pos p)) as Hpow
    by (apply Z.pow_le_mono_r; lia).
  rewrite Z.pow_succ_r in Hpow by lia. lia.
Qed.

Lemma shr_1_bound mrs :
  0 <= shr_m mrs ->
  0 <= shr_m (shr_1 mrs) /\ 2 * shr_m (shr_1 mrs) <= shr_m mrs.
Proof.
  destruct mrs as [m r s]. cbn [shr_m]. intros Hm.
  destruct m as [|[p|p|]|p]; cbn [shr_1 shr_m]; lia.
Qed.

Lemma iter_shr_1_bound p : forall mrs,
  0 <= shr_m mrs ->
  0 <= shr_m (SpecFloat.iter_pos shr_1 p mrs)
  /\ 2 ^ Z.pos p * shr_m (SpecFloat.iter_pos shr_1 p mrs) <= shr_m mrs.
Proof.
  induction p as [p IH|p IH|]; intros mrs Hm; cbn [SpecFloat.iter_pos].
  - destruct (shr_1_bound mrs Hm) as [H1 H1'].
    destruct (IH _ H1) as [H2 H2']. destruct (IH _ H2) as [H3 H3'].
    split; [exact H3|].
    replace (Z.pos p~1) with (Z.pos p + Z.pos p + 1) by lia.
    rewrite !Z.pow_add_r by lia. change (2 ^ 1) with 2.
    assert (0 < 2 ^ Z.pos p) by (apply Z.pow_pos_nonneg; lia).
    nia.
  - destruct (IH _ Hm) as [H2 H2']. destruct (IH _ H2) as [H3 H3'].
    split; [exact H3|].
    replace (Z.pos p~0) with (Z.pos p + Z.pos p) by lia.
    rewrite Z.pow_add_r by lia.
    assert (0 < 2 ^ Z.pos p) by (apply Z.pow_pos_nonneg; lia).
    nia.
  - destruct (shr_1_bound mrs Hm) as [H1 H1']. split; [exact H1|].
    change (2 ^ 1) with 2. lia.
Qed.

Lemma shr_m_record_of_loc m l : shr_m (shr_record_of_loc m l) = m.
Proof. destruct l as [|[]]; reflexivity. Qed.

(** Shifting to the canonical exponent keeps a value below [2^B]. *)
Lemma shr_fexp_bound B m e l :
  -1021 <= B -> 0 <= m -> e <= B -> m < 2 ^ (B - e) ->
  exists mrs e1,
    shr_fexp prec emax m e l = (mrs, e1)
    /\ 0 <= shr_m mrs /\ e1 <= Z.max e (B - 53)
    /\ e1 <= B /\ shr_m mrs < 2 ^ (B - e1).
Proof.
  intros HB Hm He Hlt.
  pose proof (Zdigits2_le m (B - e) Hm ltac:(lia) Hlt) as Hdig.
  unfold shr_fexp, shr, fexp, emin, prec, emax.
  set (d := Zdigits2 m) in *.
  destruct (Z.max (d + e - 53) (3 - 1024 - 53) - e) as [|n|n] eqn:Hn.
  - eexists _, _. split; [reflexivity|].
    rewrite shr_m_record_of_loc. repeat split; try assumption; lia.
  - eexists _, _. split; [reflexivity|].
    destruct (iter_shr_1_bound n (shr_record_of_loc m l)) as [Hpos Hle];
      [rewrite shr_m_record_of_loc; exact Hm|].
    rewrite shr_m_record_of_loc in Hle.
    split; [exact Hpos|]. split; [lia|]. split; [lia|].
    assert (2 ^ (B - e) = 2 ^ Z.pos n * 2 ^ (B - (e + Z.pos n))) as Hpow
      by (rewrite <- Z.pow_add_r by lia; f_equal; lia).
    assert (0 < 2 ^ Z.pos n) by (apply Z.pow_pos_nonneg; lia).
    nia.
  - eexists _, _. split; [reflexivity|].
    rewrite shr_m_record_of_loc. repeat split; try assumption; lia.
Qed.

Lemma round_nearest_even_bound m l :
  0 <= m -> m <= round_nearest_even m l <= m + 1.
Proof.
  intros Hm. destruct l as [|[]]; cbn [round_nearest_even];
    try destruct (Z.even m); lia.
Qed.

(** Rounding a value below [2^1023] does not overflow. *)
Lemma binary_round_aux_finite s m e l s' :
  0 <= m -> e <= 0 -> m < 2 ^ (1023 - e) ->
  binary_round_aux prec emax s m e l <> S754_infinity s'.
Proof.
  intros Hm He Hlt.
  destruct (shr_fexp_bound 1023 m e l) as (mrs1 & e1 & Hshr1 & Hpos1 & He1 & He1' & Hlt1);
    [lia | exact Hm | lia | exact Hlt |].
  pose proof (round_nearest_even_bound (shr_m mrs1) (loc_of_shr_record mrs1) Hpos1)
    as Hround.
  destruct (shr_fexp_bound 1024
              (round_nearest_even (shr_m mrs1) (loc_of_shr_record mrs1)) e1 loc_Exact)
    as (mrs2 & e2 & Hshr2 & Hpos2 & He2 & _ & _);
    [lia | lia | lia | |].
  { replace (1024 - e1) with (Z.succ (1023 - e1)) by lia.
    rewrite Z.pow_succ_r by lia.
    assert (0 < 2 ^ (1023 - e1)) by (apply Z.pow_pos_nonneg; lia). lia. }
  unfold binary_round_aux. rewrite Hshr1, Hshr2.
  destruct (shr_m mrs2) as [|q|q]; try discriminate.
  unfold prec, emax. destruct (Z.leb_spec e2 (1024 - 53)); [discriminate|lia].
Qed.

(** [a / b] raises nothing when the quotient is below [2^1023]. *)
Lemma truediv_finite a b :
  0 <= a -> 0 < b -> a < b * 2 ^ 1023 ->
  exists q, truediv a b = Returned (PyFloat q).
Proof.
  intros Ha Hb Hlt. destruct b as [|pb|pb]; try lia.
  destruct a as [|pa|pa]; try lia; [eexists; reflexivity|].
  unfold truediv.
  change (Z.to_pos (Z.abs (Z.pos pa))) with pa.
  change (Z.to_pos (Z.abs (Z.pos pb))) with pb.
  change (Z.pos pa <? 0) with false. change (Z.pos pb <? 0) with false.
  unfold SFdiv, SFdiv_core_binary.
  set (e' := Z.min _ _).
  assert (e' <= 0) as He' by (subst e'; lia).
  assert ((match 0 - 0 - e' with
           | 0 => Z.pos pa
           | Z.pos _ => Z.shiftl (Z.pos pa) (0 - 0 - e')
           | Z.neg _ => 0
           end) = Z.pos pa * 2 ^ (- e')) as ->.
  { replace (0 - 0 - e') with (- e') by lia.
    destruct (- e') as [|n|n] eqn:Hn; try lia.
    rewrite Z.shiftl_mul_pow2 by lia. reflexivity. }
  rewrite div_eucl_div_mod.
  assert (0 < 2 ^ (- e')) as Hpow by (apply Z.pow_pos_nonneg; lia).
  assert (0 <= Z.pos pa * 2 ^ (- e') / Z.pos pb) as Hq
    by (apply Z.div_pos; lia).
  assert (Z.pos pa * 2 ^ (- e') / Z.pos pb < 2 ^ (1023 - e')) as Hbound.
  { apply Z.div_lt_upper_bound; [lia|].
    replace (1023 - e') with (1023 + - e') by lia.
    rewrite Z.pow_add_r by lia. nia. }
  pose proof (fun s' =>
    binary_round_aux_finite (xorb false false)
      (Z.pos pa * 2 ^ (- e') / Z.pos pb) e'
      (new_location (Z.pos pb) ((Z.pos pa * 2 ^ (- e')) mod Z.pos pb)) s'
      Hq He' Hbound) as Hfinite.
  destruct (binary_round_aux _ _ _ _ _ _) as [z|i| |z m e]; eauto.
  now destruct (Hfinite i).
Qed.

(** A division by a number other than zero raises [OverflowError] only. *)
Lemma truediv_raises a b e :
  b <> 0 -> truediv a b = Raised e -> e = OverflowError.
Proof.
  intros Hb. unfold truediv.
  destruct a as [|pa|pa], b as [|pb|pb]; try congruence;
    destruct (SFdiv _ _ _ _); congruence.
Qed.

(** [q * 100] raises nothing. *)
Lemma mul_by_hundred q : exists p, mul_by_int q 100 = Returned p.
Proof.
  destruct q as [k|f]; [eexists; reflexivity|].
  unfold mul_by_int.
  destruct (float_of_int 100) as [fz|e] eqn:Hfz; [eauto|].
  vm_compute in Hfz. discriminate Hfz.
Qed.
End PyNumFacts.

(** ** The scanner *)
Section ScannerFacts.
Import Scanner ScannerSpec.

Lemma add_size_default blob x : add_size blob x = x + default 0 (size blob).
Proof.
  unfold add_size. destruct (size blob) as [s|]; simpl; [|lia].
  destruct (Z.eqb_spec s 0); lia.
Qed.

Lemma count_in_cons class bucket blob blobs :
  count_in class bucket (blob :: blobs)
  = (if decide (class blob = bucket) then 1 else 0) + count_in class bucket blobs.
Proof.
  unfold count_in. rewrite filter_cons.
  destruct (decide (class blob = bucket)); simpl length; lia.
Qed.

Lemma bytes_in_cons class bucket blob blobs :
  bytes_in class bucket (blob :: blobs)
  = (if decide (class blob = bucket) then default 0 (size blob) else 0)
    + bytes_in class bucket blobs.
Proof.
  unfold bytes_in. rewrite filter_cons.
  destruct (decide (class blob = bucket)); [rewrite fmap_cons|]; simpl foldr; lia.
Qed.




Lemma tally_sums blobs : forall c,
  foldl (fun c blob => tally blob c) c blobs = plus c (sums classify blobs).
Proof.
  induction blobs as [|blob blobs IH]; intros c.
  - simpl. destruct c. unfold plus, sums, bytes_in, count_in. simpl. f_equal; lia.
  - simpl foldl. rewrite IH. unfold plus, sums.
    rewrite !count_in_cons, !bytes_in_cons.
    unfold tally, classify.
    destruct (is_deleted blob);
      [|destruct (is_snapshot blob); [|destruct (is_version blob)]];
      repeat case_decide; try congruence; simpl; rewrite add_size_default;
      f_equal; lia.
Qed.

Lemma tally_basic_sums blobs : forall c,
  foldl (fun c blob => tally_basic blob c) c blobs
  = plus c (sums classify_basic blobs).
Proof.
  induction blobs as [|blob blobs IH]; intros c.
  - simpl. destruct c. unfold plus, sums, bytes_in, count_in. simpl. f_equal; lia.
  - simpl foldl. rewrite IH. unfold plus, sums.
    rewrite !count_in_cons, !bytes_in_cons.
    unfold tally_basic, classify_basic.
    destruct (is_deleted blob);
      repeat case_decide; try congruence; simpl; rewrite add_size_default;
      f_equal; lia.
Qed.

Lemma list_calls_app evs1 evs2 :
  list_calls (evs1 ++ evs2) = list_calls evs1 ++ list_calls evs2.
Proof. apply omap_app. Qed.

Lemma quiet_ret {A} (a : A) : quiet (mret a).
Proof. intros st. reflexivity. Qed.

Lemma quiet_raise {A} e : quiet (@PyMonad.raise Locals A e).
Proof. intros st. reflexivity. Qed.

Lemma quiet_lift {A} (o : Outcome A) : quiet (PyMonad.lift o).
Proof. intros st. reflexivity. Qed.

Lemma quiet_read {A} (f : Counters -> A) : quiet (read f).
Proof. intros st. reflexivity. Qed.

Lemma quiet_update f : quiet (update f).
Proof. intros st. reflexivity. Qed.

Lemma quiet_emit ev :
  (forall inc, ev <> ListBlobs inc) -> quiet (emit ev).
Proof.
  intros Hev st. cbn. rewrite list_calls_app.
  destruct ev; cbn; try apply app_nil_r. now destruct (Hev include).
Qed.

Lemma quiet_bind {A B} (m : Py Locals A) (k : A -> Py Locals B) :
  quiet m -> (forall a, quiet (k a)) -> quiet (m ≫= k).
Proof.
  intros Hm Hk st. py_unfold. specialize (Hm st).
  destruct (m st) as [[a|e] st']; cbn in *; [|exact Hm].
  now rewrite Hk.
Qed.

Create HintDb quiet.
#[local] Hint Resolve quiet_ret quiet_raise quiet_lift quiet_read
  quiet_update quiet_bind : quiet.

Lemma quiet_rescale field assign ratio : quiet (rescale field assign ratio).
Proof. unfold rescale. auto 10 with quiet. Qed.

Lemma quiet_estimate cfg processed_count : quiet (estimate cfg processed_count).
Proof.
  unfold estimate.
  repeat (apply quiet_bind; [auto using quiet_rescale with quiet | intros ?]).
  now apply quiet_emit.
Qed.

Lemma quiet_scan_all cfg all_blobs : forall processed_count,
  quiet (scan_all cfg all_blobs processed_count).
Proof.
  induction all_blobs as [|e|blob rest IH]; intros p; cbn [scan_all].
  - apply quiet_ret.
  - apply quiet_raise.
  - destruct (_ && _).
    + destruct (use_sampling cfg); [apply quiet_estimate | now apply quiet_emit].
    + apply quiet_bind; [apply quiet_update | intros _; apply IH].
Qed.

Lemma locals_eta (st : Locals) :
  {| counters := counters st; events := events st |} = st.
Proof. now destruct st. Qed.

(** The fallback loop consumes its whole listing. *)
Lemma scan_basic_run blobs : forall st,
  scan_basic blobs st
  = (match failure blobs with Some e => Raised e | None => Returned tt end,
     {| counters := foldl (fun c blob => tally_basic blob c) (counters st)
                      (yielded blobs);
        events := events st |}).
Proof.
  induction blobs as [|e|blob rest IH]; intros st;
    cbn [scan_basic yielded failure foldl].
  - cbn. now rewrite locals_eta.
  - cbn. now rewrite locals_eta.
  - py_unfold. cbn. now rewrite IH.
Qed.

(** The full loop when the limit never stops it. *)
Lemma scan_all_run cfg all_blobs : forall processed_count st,
  max_blobs_per_container cfg <= 0
  \/ processed_count + Z.of_nat (length (yielded all_blobs))
     <= max_blobs_per_container cfg ->
  scan_all cfg all_blobs processed_count st
  = (match failure all_blobs with Some e => Raised e | None => Returned tt end,
     {| counters := foldl (fun c blob => tally blob c) (counters st)
                      (yielded all_blobs);
        events := events st |}).
Proof.
  induction all_blobs as [|e|blob rest IH]; intros p st Hlim;
    cbn [scan_all yielded failure foldl].
  - cbn. now rewrite locals_eta.
  - cbn. now rewrite locals_eta.
  - cbn [yielded length] in Hlim.
    replace ((0 <? max_blobs_per_container cfg)
             && (max_blobs_per_container cfg <=? p)) with false
      by (symmetry; apply andb_false_iff; rewrite Z.ltb_ge, Z.leb_gt; lia).
    py_unfold. cbn. rewrite IH by lia. reflexivity.
Qed.

(** The full loop when the limit stops it: the branch taken at the limit
    runs on the sums of the first [max_blobs_per_container] records, with
    [processed_count] equal to the limit. *)
Lemma scan_all_stopped cfg all_blobs : forall processed_count st,
  0 < max_blobs_per_container cfg ->
  processed_count <= max_blobs_per_container cfg ->
  max_blobs_per_container cfg
    < processed_count + Z.of_nat (length (yielded all_blobs)) ->
  scan_all cfg all_blobs processed_count st
  = (if use_sampling cfg
     then estimate cfg (max_blobs_per_container cfg)
     else emit (LogWarningLimit (max_blobs_per_container cfg)))
      {| counters :=
           foldl (fun c blob => tally blob c) (counters st)
             (take (Z.to_nat (max_blobs_per_container cfg - processed_count))
                (yielded all_blobs));
         events := events st |}.
Proof.
  induction all_blobs as [|e|blob rest IH]; intros p st Hpos Hle Hlt;
    cbn [scan_all yielded length] in *; try lia.
  destruct (Z.eq_dec p (max_blobs_per_container cfg)) as [->|Hne].
  - replace ((0 <? max_blobs_per_container cfg)
             && (max_blobs_per_container cfg <=? max_blobs_per_container cfg))
      with true by (symmetry; apply andb_true_iff; rewrite Z.ltb_lt, Z.leb_le; lia).
    rewrite Z.sub_diag. change (Z.to_nat 0) with 0%nat. rewrite take_0.
    cbn [foldl]. now rewrite locals_eta.
  - replace ((0 <? max_blobs_per_container cfg)
             && (max_blobs_per_container cfg <=? p)) with false
      by (symmetry; apply andb_false_iff; rewrite Z.ltb_ge, Z.leb_gt; lia).
    py_unfold. cbn. rewrite IH by lia. cbn [counters events].
    replace (Z.to_nat (max_blobs_per_container cfg - p))
      with (S (Z.to_nat (max_blobs_per_container cfg - (p + 1)))) by lia.
    reflexivity.
Qed.

(** The counting, statement by statement. *)
Lemma process_single_container_unfold cfg container_name client :
  process_single_container cfg container_name client
  = let '(r1, st1) :=
      scan_all cfg (client full_include) 0
        {| counters := zero; events := [ListBlobs full_include] |} in
    match r1 with
    | Returned _ =>
        (Returned (container_name, metrics_of (counters st1)),
         {| counters := counters st1;
            events := events st1 ++ [LogInfoSummary] |})
    | Raised e =>
        let '(r2, st2) :=
          scan_basic (client reduced_include)
            {| counters := counters st1;
               events := ((events st1 ++ [LogWarningListAll e])
                          ++ [LogInfoBasicListing])
                         ++ [ListBlobs reduced_include] |} in
        (Returned (container_name, metrics_of (counters st2)),
         {| counters := counters st2;
            events :=
              match r2 with
              | Returned _ => events st2 ++ [LogInfoSummary]
              | Raised e2 => (events st2 ++ [LogErrorListing e2]) ++ [LogInfoSummary]
              end |})
    end.
Proof.
  unfold process_single_container, count_blobs, list_blobs, emit, read.
  py_unfold. cbn.
  change [inc_deleted; inc_snapshots; inc_versions] with full_include.
  change [inc_deleted] with reduced_include.
  destruct (scan_all _ _ _ _) as [[[]|e] st1]; cbn; [reflexivity|].
  destruct (scan_basic _ _) as [[[]|e2] st2]; reflexivity.
Qed.

Lemma plus_zero_l c : plus zero c = c.
Proof. destruct c. unfold plus, zero. cbn. reflexivity. Qed.

Lemma failure_met_run cfg all_blobs e st :
  failure_met cfg all_blobs = Some e ->
  scan_all cfg all_blobs 0 st
  = (Raised e,
     {| counters := plus (counters st) (sums classify (yielded all_blobs));
        events := events st |})
  /\ within_limit cfg (yielded all_blobs) = yielded all_blobs.
Proof.
  unfold failure_met, within_limit. intros Hmet.
  destruct (_ || _) eqn:Hcond; [|discriminate].
  apply orb_true_iff in Hcond. rewrite !Z.leb_le in Hcond.
  split.
  - rewrite scan_all_run by lia. now rewrite Hmet, tally_sums.
  - destruct (Z.ltb_spec 0 (max_blobs_per_container cfg)); [|reflexivity].
    apply take_ge. lia.
Qed.

(** The two listing passes raise nothing. *)
Lemma count_blobs_returns cfg client st :
  (count_blobs cfg client st).1 = Returned tt.
Proof.
  unfold count_blobs, list_blobs, emit. py_unfold. cbn.
  destruct (scan_all _ _ _ _) as [[[]|e] st1]; cbn; [reflexivity|].
  destruct (scan_basic _ _) as [[[]|e2] st2]; reflexivity.
Qed.

(** The counting returns the dict of the counters the summary meets. *)
Lemma process_single_container_counted cfg container_name client :
  process_single_container cfg container_name client
  = (Returned (container_name, metrics_of (counted cfg client)),
     {| counters := counted cfg client;
        events := events (count_blobs cfg client initial).2 ++ [LogInfoSummary] |}).
Proof.
  unfold process_single_container, counted, emit, read. py_unfold.
  pose proof (count_blobs_returns cfg client initial) as Hret.
  destruct (count_blobs cfg client initial) as [[[]|e] st]; [reflexivity|].
  discriminate Hret.
Qed.

(** The summary line, by what its arithmetic raises. *)
Lemma log_summary_run st :
  log_summary st
  = match summary_error (counters st) with
    | None =>
        (Returned tt,
         {| counters := counters st; events := events st ++ [LogInfoSummary] |})
    | Some e => (Raised e, st)
    end.
Proof.
  unfold summary_error, log_summary, read, emit. py_unfold.
  cbv beta iota zeta. cbn [counters events fst id].
  destruct (if 0 <? _ then _ else _) as [w|e]; [|reflexivity].
  destruct (PyNum.truediv (total_size _) _) as [q1|e]; [|reflexivity].
  destruct (PyNum.truediv (deleted_size _) _) as [q2|e]; [|reflexivity].
  destruct (PyNum.truediv (snapshot_size _) _) as [q3|e]; [|reflexivity].
  destruct (PyNum.truediv (version_size _) _) as [q4|e]; reflexivity.
Qed.

(** The summary raises [OverflowError] or nothing. *)
Lemma summary_error_overflow c :
  summary_error c = None \/ summary_error c = Some OverflowError.
Proof.
  unfold summary_error, log_summary, read, emit. py_unfold.
  cbv beta iota zeta. cbn [counters events fst id].
  set (total_bytes := total_size c + deleted_size c + snapshot_size c + version_size c).
  assert (forall a e, PyNum.truediv a (1024 ^ 3) = Raised e -> e = OverflowError)
    as Hgib by (intros a e; apply truediv_raises; discriminate).
  assert (forall e,
            (if 0 <? total_bytes
             then
               match PyNum.truediv (deleted_size c + snapshot_size c + version_size c)
                       total_bytes with
               | Returned quotient => PyNum.mul_by_int quotient 100
               | Raised e => Raised e
               end
             else Returned (PyNum.PyInt 0)) = Raised e -> e = OverflowError)
    as Hwaste.
  { intros e. destruct (Z.ltb_spec 0 total_bytes) as [Hpos|]; [|discriminate].
    destruct (PyNum.truediv _ total_bytes) as [q|e'] eqn:Hdiv.
    - destruct (mul_by_hundred q) as [p ->]. discriminate.
    - intros [= <-]. eapply truediv_raises; [|exact Hdiv]. lia. }
  destruct (if 0 <? total_bytes then _ else _) as [w|e] eqn:Hw;
    [|right; now rewrite (Hwaste e eq_refl)].
  destruct (PyNum.truediv (total_size c) _) as [q1|e] eqn:H1;
    [|right; now rewrite (Hgib _ e H1)].
  destruct (PyNum.truediv (deleted_size c) _) as [q2|e] eqn:H2;
    [|right; now rewrite (Hgib _ e H2)].
  destruct (PyNum.truediv (snapshot_size c) _) as [q3|e] eqn:H3;
    [|right; now rewrite (Hgib _ e H3)].
  destruct (PyNum.truediv (version_size c) _) as [q4|e] eqn:H4;
    [|right; now rewrite (Hgib _ e H4)].
  now left.
Qed.

(** Byte totals in range are logged without an exception. *)
Lemma loggable_summary c : loggable c -> summary_error c = None.
Proof.
  unfold loggable. intros Hc.
  repeat (apply Forall_cons in Hc as [? Hc]).
  assert (forall a, 0 <= a < 2 ^ 1023 ->
            exists q, PyNum.truediv a (1024 ^ 3) = Returned (PyNum.PyFloat q))
    as Hgib.
  { intros a Ha. apply truediv_finite; [lia|reflexivity|].
    assert (0 < 2 ^ 1023) by (apply Z.pow_pos_nonneg; lia).
    change (1024 ^ 3) with 1073741824. lia. }
  unfold summary_error, log_summary, read, emit. py_unfold.
  cbv beta iota zeta. cbn [counters events fst id].
  set (total_bytes := total_size c + deleted_size c + snapshot_size c + version_size c).
  assert (exists w,
            (if 0 <? total_bytes
             then
               match PyNum.truediv (deleted_size c + snapshot_size c + version_size c)
                       total_bytes with
               | Returned quotient => PyNum.mul_by_int quotient 100
               | Raised e => Raised e
               end
             else Returned (PyNum.PyInt 0)) = Returned w) as [w ->].
  { destruct (Z.ltb_spec 0 total_bytes) as [Hpos|]; [|eauto].
    destruct (truediv_finite (deleted_size c + snapshot_size c + version_size c)
                total_bytes) as [q ->]; [lia | lia | |].
    - assert (1 <= 2 ^ 1023) by (apply (Z.pow_le_mono_r 2 0 1023); lia).
      subst total_bytes. nia.
    - apply mul_by_hundred. }
  destruct (Hgib (total_size c)) as [q1 ->]; [assumption|].
  destruct (Hgib (deleted_size c)) as [q2 ->]; [assumption|].
  destruct (Hgib (snapshot_size c)) as [q3 ->]; [assumption|].
  destruct (Hgib (version_size c)) as [q4 ->]; [assumption|].
  reflexivity.
Qed.

(** The method, by its counting and its summary. *)
Lemma _process_single_container_run cfg service container_name client :
  get_container_client service container_name = Returned client ->
  _process_single_container cfg service container_name initial
  = (match summary_error (counted cfg client) with
     | None => Returned (container_name, metrics_of (counted cfg client))
     | Some e => Raised e
     end,
     {| counters := counted cfg client;
        events :=
          match summary_error (counted cfg client) with
          | None => events (count_blobs cfg client initial).2 ++ [LogInfoSummary]
          | Some _ => events (count_blobs cfg client initial).2
          end |}).
Proof.
  intros Hclient. unfold _process_single_container, counted, update, read.
  py_unfold. rewrite Hclient.
  change {| counters := counters initial; events := events initial |} with initial.
  pose proof (count_blobs_returns cfg client initial) as Hret.
  destruct (count_blobs cfg client initial) as [[[]|e] st]; [|discriminate Hret].
  cbn [snd]. rewrite log_summary_run.
  destruct (summary_error (counters st)); [|reflexivity].
  now destruct st.
Qed.

(** The list calls of the counting: the full listing, then at most the
    reduced one. *)
Lemma count_blobs_calls cfg client :
  let evs := events (count_blobs cfg client initial).2 in
  (list_calls evs = [full_include]
   \/ list_calls evs = [full_include; reduced_include])
  /\ match failure_met cfg (client full_include) with
     | Some _ =>
         list_calls evs = [full_include; reduced_include]
         /\ counted cfg client
            = plus (sums classify (yielded (client full_include)))
                (sums classify_basic (yielded (client reduced_include)))
     | None => True
     end.
Proof.
  unfold counted, count_blobs, list_blobs, emit. py_unfold. cbn.
  change [inc_deleted; inc_snapshots; inc_versions] with full_include.
  change [inc_deleted] with reduced_include.
  destruct (failure_met cfg (client full_include)) as [e|] eqn:Hmet.
  - destruct (failure_met_run _ _ _
                {| counters := zero; events := [ListBlobs full_include] |} Hmet)
      as [Hrun _].
    unfold zero in Hrun. cbn in Hrun. rewrite Hrun. cbn.
    rewrite scan_basic_run. cbn [counters events].
    rewrite tally_basic_sums.
    change (plus _ (sums classify (yielded (client full_include))))
      with (plus zero (sums classify (yielded (client full_include)))).
    rewrite plus_zero_l.
    destruct (failure (client reduced_include)); cbn; auto.
  - pose proof (quiet_scan_all cfg (client full_include) 0
                  {| counters := zero; events := [ListBlobs full_include] |})
      as Hquiet.
    unfold zero in Hquiet. cbn in Hquiet.
    destruct (scan_all _ _ _ _) as [[[]|e] st1]; cbn in Hquiet |- *.
    + rewrite Hquiet. auto.
    + rewrite scan_basic_run. split; [right|exact I].
      destruct (failure (client reduced_include)); cbn;
        rewrite !list_calls_app, Hquiet; reflexivity.
Qed.

(** C2, amended. No failure of a listing reaches the caller of the
    scanner. When [get_container_client] raises, the scanner raises the
    same exception before it lists anything. Otherwise it asks for the full
    listing, and for the reduced listing (deleted only) at most once after
    that; when the full listing fails it does ask for the reduced one, and
    - whether or not that fails too - it counts the records seen before
    each failure. With the counters so reached it returns their dict,
    unless the arithmetic of the summary line raises [OverflowError], the
    only exception it can raise; it does not when the four byte totals are
    not negative and below [2^1023]. The dict is the one the counting on
    its own returns. *)
Theorem listing_failures_never_reach_the_caller cfg service container_name :
  match get_container_client service container_name with
  | Raised e =>
      _process_single_container cfg service container_name initial
      = (Raised e, initial)
  | Returned client =>
      let c := counted cfg client in
      exists locals,
        _process_single_container cfg service container_name initial
        = (match summary_error c with
           | None => Returned (container_name, metrics_of c)
           | Some e => Raised e
           end, locals)
        /\ counters locals = c
        /\ (process_single_container cfg container_name client).1
           = Returned (container_name, metrics_of c)
        /\ (summary_error c = None \/ summary_error c = Some OverflowError)
        /\ (loggable c -> summary_error c = None)
        /\ (list_calls (events locals) = [full_include]
            \/ list_calls (events locals) = [full_include; reduced_include])
        /\ match failure_met cfg (client full_include) with
           | Some _ =>
               list_calls (events locals) = [full_include; reduced_include]
               /\ c = plus (sums classify (yielded (client full_include)))
                        (sums classify_basic (yielded (client reduced_include)))
           | None => True
           end
  end.
Proof.
  destruct (get_container_client service container_name) as [client|e] eqn:Hclient.
  - cbv zeta. eexists.
    split; [exact (_process_single_container_run _ _ _ _ Hclient)|].
    split; [reflexivity|].
    split; [now rewrite process_single_container_counted|].
    split; [apply summary_error_overflow|].
    split; [apply loggable_summary|].
    cbn [events].
    assert (forall evs : list Event,
              list_calls
                (match summary_error (counted cfg client) with
                 | None => evs ++ [LogInfoSummary]
                 | Some _ => evs
                 end) = list_calls evs) as ->.
    { intros evs. destruct (summary_error _); [reflexivity|].
      rewrite list_calls_app. cbn. apply app_nil_r. }
    apply count_blobs_calls.
  - unfold _process_single_container. py_unfold. now rewrite Hclient.
Qed.

Lemma listing_failures_never_reach_the_caller_witness :
  exists locals,
    _process_single_container
      {| max_blobs_per_container := 1; use_sampling := false |}
      (serving flaky_client) "logs" initial
    = (Returned
         ("logs"%string,
          {| Metrics.size_bytes := 20; Metrics.blob_count := 2;
             Metrics.deleted_size_bytes := 5; Metrics.deleted_blob_count := 1;
             Metrics.snapshot_size_bytes := 0; Metrics.snapshot_count := 0;
             Metrics.version_size_bytes := 0; Metrics.version_count := 0 |}),
       locals)
    /\ list_calls (events locals) = [full_include; reduced_include].
Proof.
  destruct (listing_failures_never_reach_the_caller
              {| max_blobs_per_container := 1; use_sampling := false |}
              (serving flaky_client) "logs")
    as (locals & Hrun & _ & _ & _ & _ & _ & Hcalls & _).
  exists locals. split; [|exact Hcalls].
  rewrite Hrun. vm_compute. reflexivity.
Defined.

(** C2 as the specification states it does not hold: a container whose
    full listing ends without a failure after one active blob of [2^1100]
    bytes makes the scanner raise, in the summary line, after the
    counting. *)
Lemma huge_blob_overflows_the_summary :
  failure (huge_blob full_include) = None
  /\ _process_single_container
       {| max_blobs_per_container := 0; use_sampling := false |}
       (serving huge_blob) "logs" initial
     = (Raised OverflowError,
        {| counters := sums classify [active_blob (2 ^ 1100)];
           events := [ListBlobs full_include] |}).
Proof. split; vm_compute; reflexivity. Qed.






Lemma rescale_one field assign st :
  - 2 ^ 53 < field (counters st) < 2 ^ 53 ->
  assign (field (counters st)) (counters st) = counters st ->
  rescale field assign (PyNum.PyFloat PyNum.one) st = (Returned tt, st).
Proof.
  intros Hsmall Hassign. unfold rescale, read, update. py_unfold.
  rewrite int_mul_one by exact Hsmall. rewrite Hassign. now destruct st.
Qed.

(** The estimate at the limit leaves counters below [2^53] as they are. *)
Lemma estimate_at_limit cfg st :
  0 < max_blobs_per_container cfg ->
  small (counters st) ->
  estimate cfg (max_blobs_per_container cfg) st
  = (Returned tt,
     {| counters := counters st;
        events := events st ++ [LogInfoSampling (max_blobs_per_container cfg)] |}).
Proof.
  intros Hpos Hsmall. unfold small in Hsmall.
  repeat (apply Forall_cons in Hsmall as [? Hsmall]).
  unfold estimate.
  rewrite (proj2 (Z.ltb_lt _ _) Hpos), truediv_self by exact Hpos.
  change (mbind ?k (PyMonad.lift (Returned ?r))) with (k r).
  unfold mbind, Py_bind, PyMonad.bind.
  rewrite !rescale_one by (try assumption; now destruct (counters st)).
  reflexivity.
Qed.

(** X22. With a limit, more records than the limit and sums that a float
    holds exactly, the scan with sampling returns the sums of the records
    within the limit, as the scan without sampling does. *)
Lemma sampling_equals_hard_limit limit container_name client :
  0 < limit ->
  limit < Z.of_nat (length (yielded (client full_include))) ->
  small (sums classify (take (Z.to_nat limit) (yielded (client full_include)))) ->
  (process_single_container
     {| max_blobs_per_container := limit; use_sampling := true |}
     container_name client).1
  = Returned (container_name,
              metrics_of (sums classify
                            (take (Z.to_nat limit) (yielded (client full_include)))))
  /\ (process_single_container
        {| max_blobs_per_container := limit; use_sampling := false |}
        container_name client).1
     = (process_single_container
          {| max_blobs_per_container := limit; use_sampling := true |}
          container_name client).1.
Proof.
  intros Hpos Hmore Hsmall.
  rewrite !process_single_container_unfold.
  rewrite !scan_all_stopped by (cbn; lia).
  cbn [use_sampling max_blobs_per_container counters events].
  rewrite Z.sub_0_r, tally_sums, plus_zero_l.
  rewrite estimate_at_limit by (cbn; assumption).
  split; reflexivity.
Qed.

(** C1, on the code. With a limit of two records and sampling switched
    on, a container of four blobs of ten bytes is reported with the sums
    of the first two records: the ratio [processed_count /
    max_blobs_per_container] is taken when [processed_count] has just
    reached the limit, so it is 1.0, and the estimate equals what the
    scan returns with sampling switched off; a full scan finds twice as
    much. *)
Theorem sampling_returns_the_partial_sums :
  process_single_container
    {| max_blobs_per_container := 2; use_sampling := true |} "logs" four_blobs
  = (Returned ("logs"%string,
               {| Metrics.size_bytes := 20; Metrics.blob_count := 2;
                  Metrics.deleted_size_bytes := 0; Metrics.deleted_blob_count := 0;
                  Metrics.snapshot_size_bytes := 0; Metrics.snapshot_count := 0;
                  Metrics.version_size_bytes := 0; Metrics.version_count := 0 |}),
     {| counters := sums classify (replicate 2 (active_blob 10));
        events := [ListBlobs full_include; LogInfoSampling 2; LogInfoSummary] |})
  /\ (process_single_container
        {| max_blobs_per_container := 2; use_sampling := false |} "logs" four_blobs).1
     = (process_single_container
          {| max_blobs_per_container := 2; use_sampling := true |} "logs" four_blobs).1
  /\ (process_single_container
        {| max_blobs_per_container := 0; use_sampling := true |} "logs" four_blobs).1
     = Returned ("logs"%string,
                 {| Metrics.size_bytes := 40; Metrics.blob_count := 4;
                    Metrics.deleted_size_bytes := 0; Metrics.deleted_blob_count := 0;
                    Metrics.snapshot_size_bytes := 0; Metrics.snapshot_count := 0;
                    Metrics.version_size_bytes := 0; Metrics.version_count := 0 |}).
Proof. repeat split; vm_compute; reflexivity. Qed.
End ScannerFacts.

(** ** The coordinator *)
Section FanOutFacts.
Import FanOut FanOutSpec.





Lemma collect_result_run container_count future l :
  exists l',
    collect_result container_count future l = (Returned tt, l')
    /\ containers_data l' = merged [future] (containers_data l)
    /\ (forall ev, ev ∈ events l -> ev ∈ events l')
    /\ (forall e, result future = Raised e ->
          LogErrorContainer (container_name future) e ∈ events l').
Proof.
  unfold collect_result, record_result, emit, merged. py_unfold. cbn.
  destruct (result future) as [[name metrics]|e]; cbn;
    (eexists; split; [reflexivity|]); cbn; (split; [reflexivity|]); split.
  - intros ev Hev. apply elem_of_app. now left.
  - discriminate.
  - intros ev Hev. apply elem_of_app. now left.
  - intros ? [= <-]. apply elem_of_app. right. apply list_elem_of_singleton.
    reflexivity.
Qed.

Lemma collect_results_run container_count futures : forall l,
  exists l',
    collect_results container_count futures l = (Returned tt, l')
    /\ containers_data l' = merged futures (containers_data l)
    /\ (forall ev, ev ∈ events l -> ev ∈ events l')
    /\ (forall future e, future ∈ futures -> result future = Raised e ->
          LogErrorContainer (container_name future) e ∈ events l').
Proof.
  induction futures as [|future futures IH]; intros l.
  - exists l. cbn. repeat split; auto. intros ? ? Hin. inversion Hin.
  - destruct (collect_result_run container_count future l)
      as (l1 & Hrun1 & Hdata1 & Hmono1 & Hlog1).
    destruct (IH l1) as (l2 & Hrun2 & Hdata2 & Hmono2 & Hlog2).
    exists l2. split; [|split; [|split]].
    + cbn [collect_results]. py_unfold. now rewrite Hrun1.
    + rewrite Hdata2, Hdata1. reflexivity.
    + auto.
    + intros f e Hf Hr. apply elem_of_cons in Hf as [->|Hf]; eauto.
Qed.

(** The coordinator when the container listing succeeds and is not empty. *)
Lemma get_container_metrics_run service names :
  list_containers service = Returned names ->
  names <> [] ->
  exists locals,
    get_container_metrics service
    = (Returned (merged (as_completed service names) ∅), locals)
    /\ (forall future e,
          future ∈ as_completed service names -> result future = Raised e ->
          LogErrorContainer (container_name future) e ∈ events locals).
Proof.
  intros Hlist Hne.
  unfold get_container_metrics, _get_container_metrics. py_unfold.
  rewrite Hlist. cbn.
  destruct (Z.eqb_spec (Z.of_nat (length names)) 0) as [Hz|_].
  { destruct names; [congruence|cbn in Hz; lia]. }
  match goal with |- context [collect_results ?c ?fs ?l] =>
    destruct (collect_results_run c fs l) as (l' & Hrun & Hdata & _ & Hlog)
  end.
  unfold emit in *. py_unfold. cbn in *. rewrite Hrun. cbn.
  eexists. split; [rewrite Hdata; reflexivity|].
  intros f e Hf Hr. cbn. apply elem_of_app. left. eauto.
Qed.


End FanOutFacts.

(** ** The cache *)
Section CacheFacts.
Import Scanner Cache CacheSpec.

Ltac cache_unfold :=
  cbv [_get_cached_or_fresh_data _background_refresh with_cache_lock
       _is_cache_valid _get_container_metrics thread_start
       load_cache load_cache_timestamp load_refresh_in_progress
       store_cache store_cache_timestamp store_refresh_in_progress
       time_time since emit instrument
       cache_age_set cache_hits_inc cache_misses_inc
       last_azure_fetch_duration_set];
  py_unfold.

Ltac flatten_trace := rewrite <- ?app_assoc; cbn [app].

Ltac count_events :=
  repeat match goal with
    | |- context [occurrences ?ev (?a :: ?tr)] =>
        let n := eval vm_compute in (occurrences ev (a :: tr)) in
        change (occurrences ev (a :: tr)) with n
    | |- context [occurrences ?ev []] =>
        change (occurrences ev []) with 0%nat
    end.

(** A scrape of a fresh cache. *)
Lemma scrape_fresh s snapshot t run :
  fresh s snapshot t ->
  _get_cached_or_fresh_data run s
  = (Returned (Some snapshot),
     with_trace (trace s ++ [Acquire; Load f_cache; Load f_cache_timestamp;
                             Load f_cache_timestamp; Load f_cache; Release])
       (with_instruments
          {| cache_hits := cache_hits (instruments s) + 1;
             cache_misses := cache_misses (instruments s);
             cache_age := clock s - t;
             last_azure_fetch_duration := last_azure_fetch_duration (instruments s);
             scrape_errors := scrape_errors (instruments s);
             last_scrape_timestamp := last_scrape_timestamp (instruments s);
             scrape_duration := scrape_duration (instruments s) |} s)).
Proof.
  destruct s as [acct grp ttl c ts flag ins clk thr tr].
  intros (Hc & Hts & Hage). cbn in Hc, Hts, Hage. subst c ts.
  cache_unfold. cbn.
  rewrite (proj2 (Z.ltb_lt _ _) Hage). cbn. flatten_trace. reflexivity.
Qed.

(** A scrape of a stale cache. *)
Lemma scrape_stale s snapshot t run :
  stale s snapshot t ->
  _get_cached_or_fresh_data run s
  = (Returned (Some snapshot),
     with_trace
       (trace s ++ [Acquire; Load f_cache; Load f_cache_timestamp; Load f_cache;
                    Load f_refresh_in_progress]
        ++ (if _refresh_in_progress s then []
            else [Store f_refresh_in_progress; ThreadStart])
        ++ [Load f_cache_timestamp; Load f_cache; Release])
       (with_threads
          (if _refresh_in_progress s then threads s else S (threads s))
          (with_refresh_in_progress true
             (with_instruments
                {| cache_hits := cache_hits (instruments s);
                   cache_misses := cache_misses (instruments s) + 1;
                   cache_age := clock s - t;
                   last_azure_fetch_duration :=
                     last_azure_fetch_duration (instruments s);
                   scrape_errors := scrape_errors (instruments s);
                   last_scrape_timestamp := last_scrape_timestamp (instruments s);
                   scrape_duration := scrape_duration (instruments s) |} s)))).
Proof.
  destruct s as [acct grp ttl c ts flag ins clk thr tr].
  intros (Hc & Hts & Hage). cbn in Hc, Hts, Hage. subst c ts.
  cache_unfold. cbn.
  rewrite (proj2 (Z.ltb_ge _ _) Hage). cbn.
  destruct flag; cbn; flatten_trace; reflexivity.
Qed.

(** A scrape of an empty cache: the blocking fetch. *)
Lemma scrape_empty s run :
  _cache s = None ->
  _get_cached_or_fresh_data run s
  = match fetched run with
    | Returned containers_data =>
        (Returned (Some containers_data),
         with_trace (trace s ++ [Acquire; Load f_cache; Load f_cache; Fetch;
                                 Store f_cache; Store f_cache_timestamp; Release])
           (with_cache_timestamp (Some (clock s + elapsed run))
              (with_cache (Some containers_data)
                 (with_clock (clock s + elapsed run)
                    (with_instruments
                       {| cache_hits := cache_hits (instruments s);
                          cache_misses := cache_misses (instruments s) + 1;
                          cache_age := 0;
                          last_azure_fetch_duration := clock s + elapsed run - clock s;
                          scrape_errors := scrape_errors (instruments s);
                          last_scrape_timestamp :=
                            last_scrape_timestamp (instruments s);
                          scrape_duration := scrape_duration (instruments s) |}
                       s)))))
    | Raised e =>
        (Raised e,
         with_trace (trace s ++ [Acquire; Load f_cache; Load f_cache; Fetch; Release])
           (with_clock (clock s + elapsed run)
              (with_instruments
                 {| cache_hits := cache_hits (instruments s);
                    cache_misses := cache_misses (instruments s) + 1;
                    cache_age := cache_age (instruments s);
                    last_azure_fetch_duration :=
                      last_azure_fetch_duration (instruments s);
                    scrape_errors := scrape_errors (instruments s);
                    last_scrape_timestamp := last_scrape_timestamp (instruments s);
                    scrape_duration := scrape_duration (instruments s) |} s)))
    end.
Proof.
  destruct s as [acct grp ttl c ts flag ins clk thr tr].
  cbn. intros ->. cache_unfold. cbn.
  destruct (fetched run); cbn; flatten_trace; reflexivity.
Qed.

(** A refresh thread, to its end. *)
Lemma refresh_run s run :
  _background_refresh run s
  = match fetched run with
    | Returned containers_data =>
        (Returned tt,
         with_trace (trace s ++ [Fetch; Acquire; Store f_cache;
                                 Store f_cache_timestamp;
                                 Store f_refresh_in_progress; Release])
           (with_refresh_in_progress false
              (with_cache_timestamp (Some (clock s + elapsed run))
                 (with_cache (Some containers_data)
                    (with_clock (clock s + elapsed run)
                       (with_instruments
                          {| cache_hits := cache_hits (instruments s);
                             cache_misses := cache_misses (instruments s);
                             cache_age := 0;
                             last_azure_fetch_duration :=
                               clock s + elapsed run - clock s;
                             scrape_errors := scrape_errors (instruments s);
                             last_scrape_timestamp :=
                               last_scrape_timestamp (instruments s);
                             scrape_duration := scrape_duration (instruments s) |}
                          s))))))
    | Raised e =>
        (Returned tt,
         with_trace (trace s ++ [Fetch; Acquire; Store f_refresh_in_progress; Release])
           (with_refresh_in_progress false
              (with_clock (clock s + elapsed run) s)))
    end.
Proof.
  destruct s as [acct grp ttl c ts flag ins clk thr tr].
  cache_unfold. cbn.
  destruct (fetched run); cbn; flatten_trace; reflexivity.
Qed.

Lemma scrape_preserves_one_refresh s run :
  one_refresh s -> one_refresh (_get_cached_or_fresh_data run s).2.
Proof.
  destruct s as [acct grp ttl c ts flag ins clk thr tr].
  unfold one_refresh. cbn. intros ->.
  cache_unfold. cbn.
  destruct c as [snapshot|]; cbn.
  - destruct ts as [t|]; cbn.
    + destruct (clk - t <? ttl); cbn; [reflexivity|].
      destruct flag; reflexivity.
    + destruct flag; reflexivity.
  - destruct (fetched run); reflexivity.
Qed.

Lemma refresh_clears_flag s run :
  _refresh_in_progress (_background_refresh run s).2 = false
  /\ threads (_background_refresh run s).2 = threads s.
Proof. rewrite refresh_run. destruct (fetched run); split; reflexivity. Qed.

Lemma step_preserves_one_refresh a s s' o :
  one_refresh s -> step a s = Some (s', o) -> one_refresh s'.
Proof.
  intros Hinv. destruct a as [d|run|run]; cbn [step].
  - destruct (0 <=? d); [|discriminate]. intros [= <- _]. exact Hinv.
  - pose proof (scrape_preserves_one_refresh s run Hinv) as Hs.
    destruct (_get_cached_or_fresh_data run s) as [r s1]. intros [= <- _]. exact Hs.
  - destruct (threads s) as [|n] eqn:Hthreads; [discriminate|].
    destruct (refresh_clears_flag s run) as [Hflag Hthr].
    destruct (_background_refresh run s) as [r s1]. cbn in Hflag, Hthr.
    intros [= <- _]. unfold one_refresh in *. cbn.
    rewrite Hflag, Hthr, Hthreads.
    rewrite Hthreads in Hinv. destruct (_refresh_in_progress s); [|discriminate].
    injection Hinv as ->. reflexivity.
Qed.

Lemma exec_preserves_one_refresh actions : forall s s' obs,
  one_refresh s -> exec actions s = Some (s', obs) -> one_refresh s'.
Proof.
  induction actions as [|a rest IH]; intros s s' obs Hinv; cbn [exec].
  - intros [= <- _]. exact Hinv.
  - destruct (step a s) as [[s1 o]|] eqn:Hstep; [|discriminate].
    destruct (exec rest s1) as [[s2 os]|] eqn:Hexec; [|discriminate].
    intros [= <- _]. eapply IH; [|exact Hexec].
    eapply step_preserves_one_refresh; eauto.
Qed.

(** A new collector has no refresh thread and a clear flag. *)
Lemma init_one_refresh account group ttl now :
  one_refresh (init account group ttl now).
Proof. reflexivity. Qed.

Lemma one_refresh_bound s : one_refresh s -> (threads s <= 1)%nat.
Proof. unfold one_refresh. destruct (_refresh_in_progress s); lia. Qed.

Lemma occurrences_app ev tr1 tr2 :
  occurrences ev (tr1 ++ tr2) = (occurrences ev tr1 + occurrences ev tr2)%nat.
Proof. unfold occurrences. now rewrite filter_app, length_app. Qed.

Lemma scrapes_cons d run reads :
  scrapes ((d, run) :: reads) = Tick d :: Scrape run :: scrapes reads.
Proof. reflexivity. Qed.

(** Scrapes of a stale cache, one after the other. *)
Lemma stale_scrapes reads : forall s snapshot t,
  stale s snapshot t ->
  Forall (fun read => 0 <= read.1) reads ->
  exists s' evs,
    exec (scrapes reads) s
    = Some (s', reads ≫= (fun _ => [Silent; Served (Returned (Some snapshot))]))
    /\ stale s' snapshot t
    /\ trace s' = trace s ++ evs
    /\ occurrences Fetch evs = 0%nat
    /\ occurrences ThreadStart evs
       = (if _refresh_in_progress s then 0
          else match reads with [] => 0 | _ => 1 end)%nat
    /\ threads s' = (threads s + occurrences ThreadStart evs)%nat
    /\ _refresh_in_progress s'
       = match reads with [] => _refresh_in_progress s | _ => true end.
Proof.
  induction reads as [|[d run] reads IH]; intros s snapshot t Hstale Hticks.
  - exists s, []. cbn. rewrite app_nil_r.
    repeat split; try assumption; try apply Hstale; try lia.
    now destruct (_refresh_in_progress s).
  - apply Forall_cons in Hticks as [Hd Hticks]. cbn in Hd.
    set (s1 := with_clock (clock s + d) s).
    assert (stale s1 snapshot t) as Hstale1.
    { destruct Hstale as (Hc & Hts & Hage). repeat split; cbn; try assumption. lia. }
    pose proof (scrape_stale s1 snapshot t run Hstale1) as Hrun.
    match type of Hrun with _ = (_, ?x) => set (s2 := x) in * end.
    assert (stale s2 snapshot t) as Hstale2.
    { destruct Hstale1 as (Hc & Hts & Hage). repeat split; cbn; assumption. }
    destruct (IH s2 snapshot t Hstale2 Hticks)
      as (s' & evs & Hexec & Hstale' & Htrace & Hfetch & Hstart & Hthreads & Hflag).
    eexists s', _. split; [|split; [exact Hstale'|split; [|split; [|split; [|split]]]]].
    + rewrite scrapes_cons. cbn [exec step].
      rewrite (proj2 (Z.leb_le _ _) Hd). fold s1. rewrite Hrun, Hexec. reflexivity.
    + rewrite Htrace. subst s2. cbn [trace with_trace with_threads
        with_refresh_in_progress with_instruments with_clock s1].
      rewrite <- app_assoc. reflexivity.
    + rewrite !occurrences_app, Hfetch.
      destruct (_refresh_in_progress s1); reflexivity.
    + rewrite !occurrences_app, Hstart. cbn.
      destruct (_refresh_in_progress s); reflexivity.
    + rewrite Hthreads, !occurrences_app. subst s2 s1.
      cbn [threads with_trace with_threads with_refresh_in_progress
           with_instruments with_clock _refresh_in_progress].
      destruct (_refresh_in_progress s); cbn [app]; count_events; lia.
    + rewrite Hflag. destruct reads; reflexivity.
Qed.

(** C4. While at most one refresh thread is alive when the flag is set
    and none when it is clear, that stays so whatever scrapes, refresh
    threads and delays follow: never more than one refresh is in flight.
    And every scrape of a stale cache, in any sequence of them, returns
    the cached snapshot without a fetch, and a refresh thread is started
    by the first of them only, and only when the flag was clear. *)
Theorem stale_reads_start_at_most_one_refresh s :
  one_refresh s ->
  (forall actions s' obs,
     exec actions s = Some (s', obs) ->
     one_refresh s' /\ (threads s' <= 1)%nat)
  /\ (forall snapshot t reads,
        stale s snapshot t ->
        Forall (fun read => 0 <= read.1) reads ->
        exists s' evs,
          exec (scrapes reads) s
          = Some (s', reads ≫= (fun _ => [Silent; Served (Returned (Some snapshot))]))
          /\ trace s' = trace s ++ evs
          /\ occurrences Fetch evs = 0%nat
          /\ occurrences ThreadStart evs
             = (if _refresh_in_progress s then 0
                else match reads with [] => 0 | _ => 1 end)%nat
          /\ (threads s' <= 1)%nat).
Proof.
  intros Hinv. split.
  - intros actions s' obs Hexec.
    assert (one_refresh s') by (eapply exec_preserves_one_refresh; eauto).
    auto using one_refresh_bound.
  - intros snapshot t reads Hstale Hticks.
    destruct (stale_scrapes reads s snapshot t Hstale Hticks)
      as (s' & evs & Hexec & _ & Htrace & Hfetch & Hstart & _).
    exists s', evs. repeat split; try assumption.
    apply one_refresh_bound. eapply exec_preserves_one_refresh; eauto.
Qed.

Lemma stale_reads_start_at_most_one_refresh_witness :
  one_refresh (cached_at_100 2000 false)
  /\ stale (cached_at_100 2000 false) (one_container "logs" 10 5) 100
  /\ exists s' evs,
       exec (scrapes [(0, slow_ok); (5, slow_ok); (5, slow_ok)])
         (cached_at_100 2000 false)
       = Some (s', [(0, slow_ok); (5, slow_ok); (5, slow_ok)]
                   ≫= (fun _ => [Silent;
                                  Served (Returned (Some (one_container "logs" 10 5)))]))
       /\ trace s' = trace (cached_at_100 2000 false) ++ evs
       /\ occurrences Fetch evs = 0%nat
       /\ occurrences ThreadStart evs = 1%nat
       /\ (threads s' <= 1)%nat.
Proof.
  assert (one_refresh (cached_at_100 2000 false)) as Hinv by reflexivity.
  assert (stale (cached_at_100 2000 false) (one_container "logs" 10 5) 100)
    as Hstale by (repeat split; cbn; lia).
  split; [exact Hinv|]. split; [exact Hstale|].
  apply (proj2 (stale_reads_start_at_most_one_refresh _ Hinv)
           (one_container "logs" 10 5) 100
           [(0, slow_ok); (5, slow_ok); (5, slow_ok)] Hstale).
  repeat constructor; cbn; lia.
Defined.

(** C7. A refresh thread whose fetch raises ends without raising, with
    the flag cleared and the snapshot, its timestamp and the instruments
    as they were; if the cache was stale it still is, and the next scrape
    returns the old snapshot and starts a new refresh. *)
Theorem failed_refresh_keeps_snapshot s e d :
  exists s',
    _background_refresh {| fetched := Raised e; elapsed := d |} s = (Returned tt, s')
    /\ _refresh_in_progress s' = false
    /\ _cache s' = _cache s
    /\ _cache_timestamp s' = _cache_timestamp s
    /\ instruments s' = instruments s
    /\ forall snapshot t run,
         stale s snapshot t -> 0 <= d ->
         exists s'',
           _get_cached_or_fresh_data run s' = (Returned (Some snapshot), s'')
           /\ _refresh_in_progress s'' = true
           /\ threads s'' = S (threads s)
           /\ trace s''
              = trace s' ++ [Acquire; Load f_cache; Load f_cache_timestamp;
                             Load f_cache; Load f_refresh_in_progress;
                             Store f_refresh_in_progress; ThreadStart;
                             Load f_cache_timestamp; Load f_cache; Release].
Proof.
  rewrite refresh_run. cbn [fetched elapsed].
  eexists. split; [reflexivity|]. repeat split.
  intros snapshot t run (Hc & Hts & Hage) Hd.
  assert (stale
    (with_trace (trace s ++ [Fetch; Acquire; Store f_refresh_in_progress; Release])
       (with_refresh_in_progress false (with_clock (clock s + d) s)))
    snapshot t) as Hstale'
    by (repeat split; cbn; try assumption; lia).
  rewrite (scrape_stale _ snapshot t run Hstale').
  eexists. split; [reflexivity|]. repeat split.
Qed.

Lemma failed_refresh_keeps_snapshot_witness :
  stale (cached_at_100 2000 true) (one_container "logs" 10 5) 100
  /\ exists s' s'',
    _background_refresh {| fetched := Raised (AzureError 503); elapsed := 30 |}
      (cached_at_100 2000 true) = (Returned tt, s')
    /\ _refresh_in_progress s' = false
    /\ _cache s' = Some (one_container "logs" 10 5)
    /\ _cache_timestamp s' = Some 100
    /\ _get_cached_or_fresh_data slow_ok s'
       = (Returned (Some (one_container "logs" 10 5)), s'')
    /\ _refresh_in_progress s'' = true.
Proof.
  assert (stale (cached_at_100 2000 true) (one_container "logs" 10 5) 100)
    as Hstale by (repeat split; cbn; lia).
  split; [exact Hstale|].
  destruct (failed_refresh_keeps_snapshot (cached_at_100 2000 true)
              (AzureError 503) 30)
    as (s' & Hrun & Hflag & Hc & Hts & _ & Hretry).
  destruct (Hretry _ _ slow_ok Hstale ltac:(lia)) as (s'' & Hscrape & Hflag' & _).
  exists s', s''. auto 10.
Defined.

(** C8. A scrape of a fresh cache returns the cached snapshot and
    leaves snapshot, timestamp, flag, threads and clock as they were;
    it fetches nothing, stores nothing and starts no thread, and only the
    hit counter and the age gauge change. A second scrape within the TTL
    returns the same snapshot, again without a fetch. *)
Theorem fresh_read_changes_only_instruments s snapshot t run :
  fresh s snapshot t ->
  exists s',
    _get_cached_or_fresh_data run s = (Returned (Some snapshot), s')
    /\ _cache s' = _cache s
    /\ _cache_timestamp s' = _cache_timestamp s
    /\ _refresh_in_progress s' = _refresh_in_progress s
    /\ threads s' = threads s
    /\ clock s' = clock s
    /\ cache_hits (instruments s') = cache_hits (instruments s) + 1
    /\ cache_misses (instruments s') = cache_misses (instruments s)
    /\ trace s' = trace s ++ [Acquire; Load f_cache; Load f_cache_timestamp;
                              Load f_cache_timestamp; Load f_cache; Release]
    /\ forall d run',
         0 <= d -> clock s + d - t < cache_ttl_seconds s ->
         exists s'',
           exec [Tick d; Scrape run'] s'
           = Some (s'', [Silent; Served (Returned (Some snapshot))])
           /\ _cache s'' = _cache s
           /\ _cache_timestamp s'' = _cache_timestamp s
           /\ trace s'' = trace s' ++ [Acquire; Load f_cache; Load f_cache_timestamp;
                                       Load f_cache_timestamp; Load f_cache; Release].
Proof.
  intros Hfresh. rewrite (scrape_fresh s snapshot t run Hfresh).
  eexists. split; [reflexivity|]. repeat split.
  intros d run' Hd Hage. cbn [exec step].
  rewrite (proj2 (Z.leb_le _ _) Hd).
  match goal with |- context [_get_cached_or_fresh_data run' ?x] =>
    assert (fresh x snapshot t) as Hfresh'
      by (destruct Hfresh as (Hc & Hts & _); repeat split; cbn; assumption);
    rewrite (scrape_fresh x snapshot t run' Hfresh')
  end.
  eexists. split; [reflexivity|]. repeat split.
Qed.

Lemma fresh_read_changes_only_instruments_witness :
  fresh (cached_at_100 400 false) (one_container "logs" 10 5) 100
  /\ exists s',
    _get_cached_or_fresh_data slow_ok (cached_at_100 400 false)
    = (Returned (Some (one_container "logs" 10 5)), s')
    /\ _cache s' = _cache (cached_at_100 400 false)
    /\ _cache_timestamp s' = Some 100
    /\ _refresh_in_progress s' = false.
Proof.
  assert (fresh (cached_at_100 400 false) (one_container "logs" 10 5) 100)
    as Hfresh by (repeat split; cbn; lia).
  split; [exact Hfresh|].
  destruct (fresh_read_changes_only_instruments _ _ _ slow_ok Hfresh)
    as (s' & Hrun & Hc & Hts & Hflag & _).
  exists s'. auto.
Defined.


(** What the first scrape of a new collector does, in order. *)
Example first_scrape_trace :
  trace (_get_cached_or_fresh_data slow_ok (init "account" "group" 900 0)).2
  = [Acquire; Load f_cache; Load f_cache; Fetch;
     Store f_cache; Store f_cache_timestamp; Release].
Proof. reflexivity. Qed.

End CacheFacts.

(** ** The projector *)
Section ProjectorFacts.
Import Projector ProjectorSpec.
Abbreviation ContainerMetrics := Scanner.ContainerMetrics.

Lemma loop_body_names account group st item :
  name <$> families st = family_names ->
  name <$> families (loop_body account group st item) = family_names.
Proof.
  destruct item as [container_name metrics]. destruct st as [fams tot].
  cbn [families loop_body].
  intros Hnames.
  assert (length fams = 8%nat) as Hlen
    by (rewrite <- (length_fmap name), Hnames; reflexivity).
  do 9 (destruct fams as [|? fams]; try discriminate Hlen).
  exact Hnames.
Qed.

Lemma loop_names account group items : forall st,
  name <$> families st = family_names ->
  name <$> families (foldl (loop_body account group) st items) = family_names.
Proof.
  induction items as [|item items IH]; intros st Hst; [exact Hst|].
  cbn [foldl]. apply IH. now apply loop_body_names.
Qed.

Lemma loop_totals account group items : forall st,
  let st' := foldl (loop_body account group) st items in
  total_size (totals st')
    = total_size (totals st) + items_sum Metrics.size_bytes items
  /\ total_deleted_size (totals st')
    = total_deleted_size (totals st) + items_sum Metrics.deleted_size_bytes items
  /\ total_snapshot_size (totals st')
    = total_snapshot_size (totals st) + items_sum Metrics.snapshot_size_bytes items
  /\ total_version_size (totals st')
    = total_version_size (totals st) + items_sum Metrics.version_size_bytes items.
Proof.
  induction items as [|[container_name metrics] items IH]; intros st; cbn zeta.
  - cbn. repeat split; lia.
  - cbn [foldl]. specialize (IH (loop_body account group st (container_name, metrics))).
    cbn zeta in IH. destruct IH as (H1 & H2 & H3 & H4).
    rewrite H1, H2, H3, H4. unfold items_sum. cbn -[Z.add]. repeat split; lia.
Qed.

Lemma sum_of_items key (containers_data : gmap string ContainerMetrics) :
  sum_of key containers_data = items_sum key (map_to_list containers_data).
Proof.
  unfold sum_of, items_sum. rewrite map_fold_foldr.
  induction (map_to_list containers_data) as [|[k m] items IH]; [reflexivity|].
  cbn. now rewrite IH.
Qed.

Lemma account_value_skips metric fams rest :
  metric ∉ name <$> fams ->
  account_value metric (fams ++ rest) = account_value metric rest.
Proof.
  intros Hnot. unfold account_value. rewrite filter_app.
  replace (filter (fun family => name family = metric) fams)
    with (@nil GaugeMetricFamily);
    [reflexivity|].
  symmetry. induction fams as [|fam fams IH]; [reflexivity|].
  rewrite fmap_cons in Hnot. apply not_elem_of_cons in Hnot as [Hne Hnot].
  rewrite filter_cons. destruct (decide (name fam = metric)); [congruence|]. auto.
Qed.

(** C5. The four account-level families carry the sum of [Metrics.size_bytes]
    over the containers, the sum of [Metrics.deleted_size_bytes], the sum of the
    two, and that plus the sums of [Metrics.snapshot_size_bytes] and
    [Metrics.version_size_bytes]. For a single container of 1,048,576,000 active
    and 524,288,000 deleted bytes the total with deleted is
    1,572,864,000. *)
Theorem account_rollups_are_sums account group
    (containers_data : gmap string ContainerMetrics) :
  let yielded := metric_families account group containers_data in
  account_value "azure_storage_account_total_size_bytes" yielded
    = Some (sum_of Metrics.size_bytes containers_data)
  /\ account_value "azure_storage_account_total_deleted_size_bytes" yielded
    = Some (sum_of Metrics.deleted_size_bytes containers_data)
  /\ account_value "azure_storage_account_total_size_with_deleted_bytes" yielded
    = Some (sum_of Metrics.size_bytes containers_data
            + sum_of Metrics.deleted_size_bytes containers_data)
  /\ account_value "azure_storage_account_total_size_all_bytes" yielded
    = Some (sum_of Metrics.size_bytes containers_data
            + sum_of Metrics.deleted_size_bytes containers_data
            + sum_of Metrics.snapshot_size_bytes containers_data
            + sum_of Metrics.version_size_bytes containers_data)
  /\ forall container_name blobs deleted_blobs snapshots snapshot_bytes
            versions version_bytes,
       account_value "azure_storage_account_total_size_with_deleted_bytes"
         (metric_families account group
            {[ container_name :=
                 {| Metrics.size_bytes := 1048576000;
                    Metrics.blob_count := blobs;
                    Metrics.deleted_size_bytes := 524288000;
                    Metrics.deleted_blob_count := deleted_blobs;
                    Metrics.snapshot_size_bytes := snapshot_bytes;
                    Metrics.snapshot_count := snapshots;
                    Metrics.version_size_bytes := version_bytes;
                    Metrics.version_count := versions |} ]})
       = Some 1572864000.
Proof.
  assert (forall data : gmap string ContainerMetrics,
    let yielded := metric_families account group data in
    account_value "azure_storage_account_total_size_bytes" yielded
      = Some (sum_of Metrics.size_bytes data)
    /\ account_value "azure_storage_account_total_deleted_size_bytes" yielded
      = Some (sum_of Metrics.deleted_size_bytes data)
    /\ account_value "azure_storage_account_total_size_with_deleted_bytes" yielded
      = Some (sum_of Metrics.size_bytes data + sum_of Metrics.deleted_size_bytes data)
    /\ account_value "azure_storage_account_total_size_all_bytes" yielded
      = Some (sum_of Metrics.size_bytes data + sum_of Metrics.deleted_size_bytes data
              + sum_of Metrics.snapshot_size_bytes data
              + sum_of Metrics.version_size_bytes data)) as Hsums.
  { intros data yielded. subst yielded. unfold metric_families.
    pose proof (loop_names account group (map_to_list data) before_loop eq_refl)
      as Hnames.
    destruct (loop_totals account group (map_to_list data) before_loop)
      as (H1 & H2 & H3 & H4).
    cbn [before_loop totals total_size total_deleted_size total_snapshot_size
         total_version_size] in H1, H2, H3, H4.
    rewrite !sum_of_items.
    rewrite !account_value_skips
      by (rewrite Hnames; apply (bool_decide_unpack _); vm_compute; exact I).
    unfold account_value, account_families. cbn.
    rewrite H1, H2, H3, H4. repeat split; do 2 f_equal; lia. }
  cbn zeta in *. destruct (Hsums containers_data) as (H1 & H2 & H3 & H4).
  repeat split; try assumption.
  intros.
  match goal with |- account_value _ (metric_families _ _ ?data) = _ =>
    destruct (Hsums data) as (_ & _ & -> & _)
  end.
  unfold sum_of. rewrite !map_fold_singleton. reflexivity.
Qed.
(** The scenario of the specification, end to end: a container of 100
    active and 50 deleted blobs of 10 MiB each is scanned, and the scan's
    result is projected. *)
Example logs_scenario :
  let client : Scanner.ContainerClient :=
    fun _ =>
      ScannerSpec.paged
        (replicate 100 (ScannerSpec.active_blob 10485760)
         ++ replicate 50 (ScannerSpec.deleted_blob 10485760))
        Scanner.Exhausted in
  let scanned :=
    (Scanner.process_single_container
       {| Scanner.max_blobs_per_container := 0; Scanner.use_sampling := false |}
       "logs" client).1 in
  scanned
  = Returned ("logs"%string,
              {| Metrics.size_bytes := 1048576000; Metrics.blob_count := 100;
                 Metrics.deleted_size_bytes := 524288000;
                 Metrics.deleted_blob_count := 50;
                 Metrics.snapshot_size_bytes := 0; Metrics.snapshot_count := 0;
                 Metrics.version_size_bytes := 0; Metrics.version_count := 0 |})
  /\ match scanned with
     | Returned (name, metrics) =>
         account_value "azure_storage_account_total_size_with_deleted_bytes"
           (metric_families "account" "group" {[ name := metrics ]})
         = Some 1572864000
     | Raised _ => False
     end.
Proof. split; vm_compute; reflexivity. Qed.

End ProjectorFacts.

(** ** More about the scanner *)
Section ScannerMore.
Import Scanner ScannerSpec ScannerLaws.



Lemma sums_permutation class blobs1 blobs2 :
  blobs1 ≡ₚ blobs2 -> sums class blobs1 = sums class blobs2.
Proof.
  intros Hperm.
  assert (forall bucket,
    count_in class bucket blobs1 = count_in class bucket blobs2
    /\ bytes_in class bucket blobs1 = bytes_in class bucket blobs2) as Heq.
  { intros bucket. induction Hperm as [|x l l' _ IH|x y l|l l' l'' _ IH1 _ IH2].
    - split; reflexivity.
    - rewrite !count_in_cons, !bytes_in_cons. destruct IH as [-> ->]. split; reflexivity.
    - rewrite !count_in_cons, !bytes_in_cons. split; lia.
    - destruct IH1 as [-> ->]. exact IH2. }
  unfold sums. f_equal; apply Heq.
Qed.








(** X4. The order in which a complete listing yields its records does
    not matter: two listings without failure that hold the same records,
    scanned without a limit, give the same metrics. *)
Theorem listing_order_is_irrelevant cfg container_name client1 client2 :
  max_blobs_per_container cfg <= 0 ->
  failure (client1 full_include) = None ->
  failure (client2 full_include) = None ->
  yielded (client1 full_include) ≡ₚ yielded (client2 full_include) ->
  (process_single_container cfg container_name client1).1
  = (process_single_container cfg container_name client2).1.
Proof.
  intros Hlimit Hok1 Hok2 Hperm.
  rewrite !process_single_container_unfold.
  rewrite !scan_all_run, Hok1, Hok2 by (left; exact Hlimit).
  cbn [counters events fst]. rewrite !tally_sums, !plus_zero_l.
  now rewrite (sums_permutation classify _ _ Hperm).
Qed.

Lemma yielded_paged blobs : yielded (paged blobs Exhausted) = blobs.
Proof. induction blobs as [|blob blobs IH]; [reflexivity|]. cbn. now rewrite IH. Qed.

Lemma failure_paged blobs : failure (paged blobs Exhausted) = None.
Proof. induction blobs as [|blob blobs IH]; [reflexivity|exact IH]. Qed.

Lemma listing_order_is_irrelevant_witness :
  (process_single_container
     {| max_blobs_per_container := 0; use_sampling := false |}
     "logs" thousand_blobs).1
  = (process_single_container
       {| max_blobs_per_container := 0; use_sampling := false |}
       "logs" thousand_blobs_reversed).1.
Proof.
  apply listing_order_is_irrelevant.
  - cbn. lia.
  - apply failure_paged.
  - apply failure_paged.
  - unfold thousand_blobs_reversed. rewrite yielded_paged.
    symmetry. apply reverse_Permutation.
Defined.



Lemma sampling_equals_hard_limit_witness :
  (process_single_container
     {| max_blobs_per_container := 2; use_sampling := true |} "logs" four_blobs).1
  = Returned ("logs"%string,
              metrics_of (sums classify (replicate 2 (active_blob 10))))
  /\ (process_single_container
        {| max_blobs_per_container := 2; use_sampling := false |} "logs" four_blobs).1
     = (process_single_container
          {| max_blobs_per_container := 2; use_sampling := true |} "logs" four_blobs).1.
Proof.
  apply (sampling_equals_hard_limit 2 "logs" four_blobs).
  - lia.
  - cbn. lia.
  - repeat constructor; cbn; lia.
Defined.

(** X23. When [get_container_client] hands out the client and the four
    byte totals counted in the listings are not negative and below
    [2^1023], the statements outside the [try] raise nothing: the method
    returns the dict of its counters, and its counters and events are
    those of the counting, the summary line logged last. *)
Theorem method_returns_what_it_counted cfg service container_name client :
  get_container_client service container_name = Returned client ->
  loggable (counted cfg client) ->
  _process_single_container cfg service container_name initial
  = process_single_container cfg container_name client
  /\ (process_single_container cfg container_name client).1
     = Returned (container_name, metrics_of (counted cfg client))
  /\ counters (process_single_container cfg container_name client).2
     = counted cfg client
  /\ last (events (process_single_container cfg container_name client).2)
     = Some LogInfoSummary.
Proof.
  intros Hclient Hloggable.
  rewrite (_process_single_container_run _ _ _ _ Hclient).
  rewrite (loggable_summary _ Hloggable), process_single_container_counted.
  cbn [fst snd counters events]. rewrite last_snoc. auto.
Qed.

Lemma method_returns_what_it_counted_witness :
  _process_single_container
    {| max_blobs_per_container := 2; use_sampling := true |}
    (serving four_blobs) "logs" initial
  = process_single_container
      {| max_blobs_per_container := 2; use_sampling := true |} "logs" four_blobs
  /\ (process_single_container
        {| max_blobs_per_container := 2; use_sampling := true |} "logs" four_blobs).1
     = Returned ("logs"%string,
                 {| Metrics.size_bytes := 20; Metrics.blob_count := 2;
                    Metrics.deleted_size_bytes := 0; Metrics.deleted_blob_count := 0;
                    Metrics.snapshot_size_bytes := 0; Metrics.snapshot_count := 0;
                    Metrics.version_size_bytes := 0; Metrics.version_count := 0 |}).
Proof.
  destruct (method_returns_what_it_counted
              {| max_blobs_per_container := 2; use_sampling := true |}
              (serving four_blobs) "logs" four_blobs eq_refl)
    as (Hrun & Hdict & _).
  - repeat constructor; vm_compute; congruence.
  - split; [exact Hrun|]. rewrite Hdict. vm_compute. reflexivity.
Defined.
End ScannerMore.

(** ** The accuracy script *)
Section TestAccuracyFacts.
Import Scanner ScannerSpec TestAccuracy.




End TestAccuracyFacts.

(** ** More about the coordinator *)
Section FanOutMore.
Import FanOut FanOutSpec FanOutLaws.

(** The coordinator whenever the container listing succeeds. *)
Lemma get_container_metrics_awaited service names :
  list_containers service = Returned names ->
  exists locals,
    get_container_metrics service
    = (Returned (merged (awaited service names) ∅), locals).
Proof.
  intros Hlist. destruct names as [|name names].
  - unfold get_container_metrics, _get_container_metrics, emit. py_unfold.
    rewrite Hlist. cbn. eauto.
  - destruct (get_container_metrics_run service (name :: names) Hlist)
      as (locals & Hrun & _); [discriminate|]. eauto.
Qed.




Lemma merged_permutation futures1 futures2 :
  futures1 ≡ₚ futures2 ->
  forall data,
    NoDup (container_name <$> futures1) ->
    Forall well_named futures1 ->
    merged futures1 data = merged futures2 data.
Proof.
  induction 1 as [|x l l' Hperm IH|x y l|l l' l'' Hperm1 IH1 Hperm2 IH2];
    intros data Hnodup Hnamed.
  - reflexivity.
  - rewrite fmap_cons in Hnodup. apply NoDup_cons in Hnodup as [_ Hnodup].
    apply Forall_cons in Hnamed as [_ Hnamed].
    unfold merged in *. cbn [foldl]. now apply IH.
  - rewrite !fmap_cons in Hnodup.
    apply NoDup_cons in Hnodup as [Hxy _].
    apply not_elem_of_cons in Hxy as [Hne _].
    apply Forall_cons in Hnamed as [Hy Hnamed].
    apply Forall_cons in Hnamed as [Hx _].
    unfold merged, well_named in *. cbn [foldl].
    destruct (result x) as [[nx mx]|?]; destruct (result y) as [[ny my]|?];
      try reflexivity.
    subst nx ny. f_equal. apply insert_insert_ne. congruence.
  - rewrite IH1 by assumption. apply IH2.
    + now rewrite <- Hperm1.
    + now rewrite <- Hperm1.
Qed.

(** X8. With distinct containers the snapshot does not depend on the
    order in which the scans complete. *)
Theorem completion_order_is_irrelevant service1 service2 names :
  list_containers service1 = Returned names ->
  list_containers service2 = Returned names ->
  as_completed service1 names ≡ₚ as_completed service2 names ->
  NoDup (container_name <$> as_completed service1 names) ->
  Forall well_named (as_completed service1 names) ->
  (get_container_metrics service1).1 = (get_container_metrics service2).1.
Proof.
  intros Hlist1 Hlist2 Hperm Hnodup Hnamed.
  destruct (get_container_metrics_awaited service1 names Hlist1) as [l1 ->].
  destruct (get_container_metrics_awaited service2 names Hlist2) as [l2 ->].
  cbn [fst]. f_equal. destruct names as [|name names]; [reflexivity|].
  cbn [awaited]. now apply merged_permutation.
Qed.

Lemma completion_order_is_irrelevant_witness :
  (get_container_metrics four_containers).1
  = (get_container_metrics four_containers_reordered).1.
Proof.
  apply (completion_order_is_irrelevant four_containers four_containers_reordered
           ["a"; "b"; "c"; "d"]%string eq_refl eq_refl).
  - cbn [as_completed four_containers_reordered]. symmetry. apply reverse_Permutation.
  - apply (bool_decide_unpack _). vm_compute. exact I.
  - repeat constructor.
Defined.



End FanOutMore.

(** ** More about the cache *)
Section CacheMore.
Import Scanner Cache CacheSpec CacheLaws.

Ltac cache_run :=
  cbv [_get_cached_or_fresh_data _background_refresh with_cache_lock
       _is_cache_valid _get_container_metrics thread_start
       load_cache load_cache_timestamp load_refresh_in_progress
       store_cache store_cache_timestamp store_refresh_in_progress
       time_time since emit instrument
       cache_age_set cache_hits_inc cache_misses_inc
       last_azure_fetch_duration_set];
  py_unfold.

Ltac flat_trace := rewrite <- ?app_assoc; cbn [app].

(** A scrape within the TTL of a snapshot taken at [t]. *)
Lemma hit_after s data t d run :
  _cache s = Some data -> _cache_timestamp s = Some t ->
  0 <= d -> clock s + d - t < cache_ttl_seconds s ->
  exists s',
    exec [Tick d; Scrape run] s = Some (s', [Silent; Served (Returned (Some data))])
    /\ trace s' = trace s ++ hit_events
    /\ cache_hits (instruments s') = cache_hits (instruments s) + 1
    /\ cache_misses (instruments s') = cache_misses (instruments s)
    /\ _cache s' = Some data /\ _cache_timestamp s' = Some t
    /\ _refresh_in_progress s' = _refresh_in_progress s
    /\ threads s' = threads s.
Proof.
  intros Hc Hts Hd Hage. cbn [exec step].
  rewrite (proj2 (Z.leb_le _ _) Hd).
  assert (fresh (with_clock (clock s + d) s) data t) as Hfresh
    by (repeat split; cbn; assumption).
  rewrite (scrape_fresh _ data t run Hfresh).
  eexists. split; [reflexivity|]. cbn. repeat split; assumption.
Qed.

(** X10. The first scrape of an empty cache fetches while the caller
    waits; when the fetch succeeds the scrape returns what was fetched and
    stores it with the time at which the fetch ended, and every scrape
    within the TTL after that is served from the cache without a fetch. *)
Theorem first_scrape_fills_the_cache s run data :
  _cache s = None ->
  fetched run = Returned data ->
  exists s',
    _get_cached_or_fresh_data run s = (Returned (Some data), s')
    /\ _cache s' = Some data
    /\ _cache_timestamp s' = Some (clock s + elapsed run)
    /\ clock s' = clock s + elapsed run
    /\ _refresh_in_progress s' = _refresh_in_progress s
    /\ threads s' = threads s
    /\ trace s' = trace s ++ [Acquire; Load f_cache; Load f_cache; Fetch;
                              Store f_cache; Store f_cache_timestamp; Release]
    /\ forall d run',
         0 <= d -> d < cache_ttl_seconds s ->
         exists s'',
           exec [Tick d; Scrape run'] s'
           = Some (s'', [Silent; Served (Returned (Some data))])
           /\ trace s'' = trace s' ++ hit_events
           /\ cache_hits (instruments s'') = cache_hits (instruments s') + 1.
Proof.
  intros Hempty Hfetched. rewrite (scrape_empty s run Hempty), Hfetched.
  eexists. do 7 (split; [reflexivity|]).
  intros d run' Hd Httl.
  match goal with |- context [exec _ ?x] =>
    destruct (hit_after x data (clock s + elapsed run) d run')
      as (s'' & Hexec & Htrace & Hhits & _)
  end; try reflexivity; cbn; try lia.
  exists s''. split; [exact Hexec|]. split; [exact Htrace|exact Hhits].
Qed.

Lemma first_scrape_fills_the_cache_witness :
  exists s' s'',
    _get_cached_or_fresh_data slow_ok (init "account" "group" 900 1000)
    = (Returned (Some (one_container "logs" 20 5)), s')
    /\ _cache_timestamp s' = Some 1060
    /\ exec [Tick 899; Scrape slow_failure] s'
       = Some (s'', [Silent; Served (Returned (Some (one_container "logs" 20 5)))])
    /\ trace s'' = trace s' ++ hit_events.
Proof.
  destruct (first_scrape_fills_the_cache (init "account" "group" 900 1000)
              slow_ok (one_container "logs" 20 5) eq_refl eq_refl)
    as (s' & Hrun & _ & Hts & _ & _ & _ & _ & Hnext).
  destruct (Hnext 899 slow_failure) as (s'' & Hexec & Htrace & _);
    [lia | cbn; lia |].
  exists s', s''. auto.
Defined.

(** X11. When the fetch of the first scrape raises, the scrape raises
    the same exception to its caller, releases the lock and leaves the
    cache empty, so that the next scrape fetches again. *)
Theorem failed_first_scrape_leaves_cache_empty s run e :
  _cache s = None ->
  fetched run = Raised e ->
  exists s',
    _get_cached_or_fresh_data run s = (Raised e, s')
    /\ _cache s' = None
    /\ _cache_timestamp s' = _cache_timestamp s
    /\ _refresh_in_progress s' = _refresh_in_progress s
    /\ threads s' = threads s
    /\ trace s' = trace s ++ [Acquire; Load f_cache; Load f_cache; Fetch; Release]
    /\ forall run' data,
         fetched run' = Returned data ->
         exists s'',
           _get_cached_or_fresh_data run' s' = (Returned (Some data), s'')
           /\ _cache s'' = Some data
           /\ occurrences Fetch (trace s'') = S (occurrences Fetch (trace s')).
Proof.
  intros Hempty Hfetched. rewrite (scrape_empty s run Hempty), Hfetched.
  eexists. split; [reflexivity|]. split; [exact Hempty|].
  do 4 (split; [reflexivity|]).
  intros run' data Hdata.
  match goal with |- context [_get_cached_or_fresh_data run' ?x] =>
    rewrite (scrape_empty x run' Hempty)
  end.
  rewrite Hdata. eexists. split; [reflexivity|]. split; [reflexivity|].
  cbn [trace with_trace with_clock with_instruments with_cache with_cache_timestamp].
  rewrite !occurrences_app.
  change (occurrences Fetch [Acquire; Load f_cache; Load f_cache; Fetch;
                             Store f_cache; Store f_cache_timestamp; Release])
    with 1%nat.
  lia.
Qed.

Lemma failed_first_scrape_leaves_cache_empty_witness :
  exists s' s'',
    _get_cached_or_fresh_data slow_failure (init "account" "group" 900 1000)
    = (Raised (AzureError 503), s')
    /\ _cache s' = None
    /\ _get_cached_or_fresh_data slow_ok s'
       = (Returned (Some (one_container "logs" 20 5)), s'').
Proof.
  destruct (failed_first_scrape_leaves_cache_empty
              (init "account" "group" 900 1000) slow_failure (AzureError 503)
              eq_refl eq_refl)
    as (s' & Hrun & Hempty & _ & _ & _ & _ & Hnext).
  destruct (Hnext slow_ok _ eq_refl) as (s'' & Hrun' & _).
  exists s', s''. auto.
Defined.

(** X12. A refresh thread whose fetch succeeds replaces the snapshot,
    stamps it with the time at which the fetch ended and clears the flag;
    a scrape within the TTL after that returns the new snapshot as a
    cache hit, without a fetch and without starting a thread. *)
Theorem refresh_publishes_the_new_snapshot s run data :
  fetched run = Returned data ->
  exists s',
    _background_refresh run s = (Returned tt, s')
    /\ _cache s' = Some data
    /\ _cache_timestamp s' = Some (clock s + elapsed run)
    /\ _refresh_in_progress s' = false
    /\ trace s' = trace s ++ [Fetch; Acquire; Store f_cache; Store f_cache_timestamp;
                              Store f_refresh_in_progress; Release]
    /\ forall d run',
         0 <= d -> d < cache_ttl_seconds s ->
         exists s'',
           exec [Tick d; Scrape run'] s'
           = Some (s'', [Silent; Served (Returned (Some data))])
           /\ trace s'' = trace s' ++ hit_events
           /\ _refresh_in_progress s'' = false
           /\ threads s'' = threads s.
Proof.
  intros Hfetched. rewrite refresh_run, Hfetched.
  eexists. do 5 (split; [reflexivity|]).
  intros d run' Hd Httl.
  match goal with |- context [exec _ ?x] =>
    destruct (hit_after x data (clock s + elapsed run) d run')
      as (s'' & Hexec & Htrace & _ & _ & _ & _ & Hflag & Hthreads)
  end; try reflexivity; cbn; try lia.
  exists s''. split; [exact Hexec|]. split; [exact Htrace|].
  split; [exact Hflag|exact Hthreads].
Qed.

Lemma refresh_publishes_the_new_snapshot_witness :
  exists s' s'',
    _background_refresh slow_ok (cached_at_100 2000 true) = (Returned tt, s')
    /\ _cache s' = Some (one_container "logs" 20 5)
    /\ _cache_timestamp s' = Some 2060
    /\ _refresh_in_progress s' = false
    /\ exec [Tick 30; Scrape slow_failure] s'
       = Some (s'', [Silent; Served (Returned (Some (one_container "logs" 20 5)))]).
Proof.
  destruct (refresh_publishes_the_new_snapshot (cached_at_100 2000 true)
              slow_ok (one_container "logs" 20 5) eq_refl)
    as (s' & Hrun & Hc & Hts & Hflag & _ & Hnext).
  destruct (Hnext 30 slow_failure) as (s'' & Hexec & _); [lia | cbn; lia |].
  exists s', s''. auto 6.
Defined.

(** X13. Once a snapshot is cached, a scrape never fetches and never
    writes the snapshot or its timestamp, in whatever state the rest of
    the collector is: only a refresh thread replaces a snapshot. *)
Theorem scrape_of_a_filled_cache_never_fetches s run snapshot :
  _cache s = Some snapshot ->
  exists s' r evs,
    _get_cached_or_fresh_data run s = (r, s')
    /\ _cache s' = Some snapshot
    /\ _cache_timestamp s' = _cache_timestamp s
    /\ clock s' = clock s
    /\ trace s' = trace s ++ evs
    /\ occurrences Fetch evs = 0%nat
    /\ occurrences (Store f_cache) evs = 0%nat
    /\ occurrences (Store f_cache_timestamp) evs = 0%nat.
Proof.
  destruct s as [acct grp ttl c ts flag ins clk thr tr]. cbn. intros ->.
  cache_run. cbn.
  destruct ts as [t|]; cbn.
  - destruct (clk - t <? ttl); cbn; [|destruct flag; cbn]; flat_trace;
      eexists _, _, _; (split; [reflexivity|]); cbn; repeat split.
  - destruct flag; cbn; flat_trace;
      eexists _, _, _; (split; [reflexivity|]); cbn; repeat split.
Qed.

Lemma scrape_of_a_filled_cache_never_fetches_witness :
  exists s' r evs,
    _get_cached_or_fresh_data slow_failure (cached_at_100 2000 false) = (r, s')
    /\ _cache s' = Some (one_container "logs" 10 5)
    /\ trace s' = trace (cached_at_100 2000 false) ++ evs
    /\ occurrences Fetch evs = 0%nat.
Proof.
  destruct (scrape_of_a_filled_cache_never_fetches (cached_at_100 2000 false)
              slow_failure (one_container "logs" 10 5) eq_refl)
    as (s' & r & evs & Hrun & Hc & _ & _ & Htrace & Hfetch & _).
  exists s', r, evs. auto.
Defined.

Lemma scrape_facts s run :
  let '(r, s') := _get_cached_or_fresh_data run s in
  (consistent s -> consistent s')
  /\ lookups s' = lookups s + 1
  /\ (consistent s ->
      match r with
      | Returned served => is_Some served
      | Raised e => _cache s = None /\ fetched run = Raised e
      end).
Proof.
  destruct s as [acct grp ttl c ts flag ins clk thr tr].
  unfold consistent, lookups. cache_run. cbn.
  destruct c as [snapshot|]; cbn.
  - destruct ts as [t|]; cbn.
    + destruct (clk - t <? ttl); cbn; [|destruct flag; cbn];
        (split; [tauto|]); (split; [lia|]); eauto.
    + destruct flag; cbn; (split; [tauto|]); (split; [lia|]);
        intros [_ H]; specialize (H eq_refl); discriminate.
  - destruct (fetched run); cbn; (split; [|split; [lia|]]); try tauto; eauto.
    intros _. split; intros; discriminate.
Qed.

Lemma step_facts a s s' o :
  step a s = Some (s', o) ->
  (consistent s -> consistent s')
  /\ lookups s' = lookups s + scrape_count [a].
Proof.
  destruct a as [d|run|run]; cbn [step].
  - destruct (0 <=? d); [|discriminate]. intros [= <- _]. split; [tauto|].
    change (scrape_count [Tick d]) with 0. unfold lookups. cbn. lia.
  - pose proof (scrape_facts s run) as Hfacts.
    destruct (_get_cached_or_fresh_data run s) as [r s1].
    intros [= <- _]. destruct Hfacts as (Hc & Hl & _). split; [exact Hc|].
    rewrite Hl. reflexivity.
  - destruct (threads s); [discriminate|].
    change (scrape_count [Refresh run]) with 0.
    rewrite refresh_run. destruct (fetched run); intros [= <- _];
      unfold consistent, lookups; cbn; split; try tauto; try lia.
    intros _. split; intros; discriminate.
Qed.

Lemma exec_facts actions : forall s s' obs,
  exec actions s = Some (s', obs) ->
  (consistent s -> consistent s')
  /\ lookups s' = lookups s + scrape_count actions.
Proof.
  induction actions as [|a rest IH]; intros s s' obs; cbn [exec].
  - intros [= <- _]. split; [tauto|]. unfold scrape_count. cbn. lia.
  - destruct (step a s) as [[s1 o]|] eqn:Hstep; [|discriminate].
    destruct (exec rest s1) as [[s2 os]|] eqn:Hexec; [|discriminate].
    intros [= <- _].
    destruct (step_facts _ _ _ _ Hstep) as [Hc1 Hl1].
    destruct (IH _ _ _ Hexec) as [Hc2 Hl2].
    split; [tauto|]. rewrite Hl2, Hl1. unfold scrape_count.
    change (a :: rest) with ([a] ++ rest).
    rewrite filter_app, length_app. lia.
Qed.

(** X14. The snapshot and its timestamp are always set together,
    whatever scrapes, refresh threads and delays a collector goes through;
    and in such a state a scrape raises only when the cache is empty and
    its own fetch raises, while every scrape that returns, returns a
    snapshot and never [None]. *)
Theorem only_the_first_fetch_can_fail s :
  consistent s ->
  (forall actions s' obs, exec actions s = Some (s', obs) -> consistent s')
  /\ (forall run,
        match (_get_cached_or_fresh_data run s).1 with
        | Returned served => is_Some served
        | Raised e => _cache s = None /\ fetched run = Raised e
        end).
Proof.
  intros Hs. split.
  - intros actions s' obs Hexec. now apply (exec_facts _ _ _ _ Hexec).
  - intros run. pose proof (scrape_facts s run) as Hfacts.
    destruct (_get_cached_or_fresh_data run s) as [r s']. now apply Hfacts.
Qed.

Lemma only_the_first_fetch_can_fail_witness :
  consistent (cached_at_100 2000 false)
  /\ (forall s' obs,
        exec [Scrape slow_failure; Refresh slow_failure; Tick 5; Scrape slow_ok]
          (cached_at_100 2000 false) = Some (s', obs) -> consistent s')
  /\ match (_get_cached_or_fresh_data slow_failure (cached_at_100 2000 false)).1 with
     | Returned served => is_Some served
     | Raised e =>
         _cache (cached_at_100 2000 false) = None
         /\ fetched slow_failure = Raised e
     end.
Proof.
  assert (consistent (cached_at_100 2000 false)) as Hs
    by (split; discriminate).
  destruct (only_the_first_fetch_can_fail _ Hs) as [Hexec Hscrape].
  split; [exact Hs|]. split.
  - intros s' obs. apply Hexec.
  - exact (Hscrape slow_failure).
Defined.

(** X15. Every scrape adds one to exactly one of the hit and miss
    counters, also when it raises, and nothing else touches them: after
    any run of scrapes, refresh threads and delays the two counters
    together have grown by the number of scrapes. *)
Theorem hits_and_misses_count_the_scrapes actions s s' obs :
  exec actions s = Some (s', obs) ->
  lookups s' = lookups s + scrape_count actions.
Proof. intros Hexec. now apply (exec_facts _ _ _ _ Hexec). Qed.

Lemma hits_and_misses_count_the_scrapes_witness :
  exists s' obs,
    exec [Scrape slow_failure; Scrape slow_ok; Tick 10; Scrape slow_ok;
          Tick 900; Scrape slow_ok; Refresh slow_failure; Scrape slow_ok]
      (init "account" "group" 900 0) = Some (s', obs)
    /\ lookups s' = 5.
Proof.
  destruct (exec [Scrape slow_failure; Scrape slow_ok; Tick 10; Scrape slow_ok;
                  Tick 900; Scrape slow_ok; Refresh slow_failure; Scrape slow_ok]
              (init "account" "group" 900 0)) as [[s' obs]|] eqn:Hexec.
  - exists s', obs. split; [reflexivity|].
    rewrite (hits_and_misses_count_the_scrapes _ _ _ _ Hexec). reflexivity.
  - vm_compute in Hexec. discriminate Hexec.
Defined.
End CacheMore.

(** ** More about the projector *)
Section ProjectorMore.
Import Cache CacheSpec CacheLaws Projector ProjectorSpec ProjectorLaws.
Abbreviation ContainerMetrics := Scanner.ContainerMetrics.

Lemma zip_with_zip_with {A B} (f g : A -> B -> A) (l : list A) : forall k,
  zip_with f (zip_with g l k) k = zip_with (fun x y => f (g x y) y) l k.
Proof.
  induction l as [|x l IH]; intros [|y k]; cbn; try reflexivity. now rewrite IH.
Qed.

Lemma zip_with_fmap_same {A B} (f : A -> B -> A) (g : B -> A) (k : list B) :
  zip_with f (g <$> k) k = (fun y => f (g y) y) <$> k.
Proof. induction k as [|y k IH]; cbn; [reflexivity|]. now rewrite IH. Qed.

Lemma extended_nil account group (fams : list GaugeMetricFamily) : forall keys,
  length fams = length keys ->
  zip_with (extended account group []) fams keys = fams.
Proof.
  induction fams as [|fam fams IH]; intros [|key keys] Hlen; try discriminate;
    [reflexivity|].
  cbn [zip_with]. rewrite IH by (cbn in Hlen; lia).
  unfold extended. cbn. rewrite app_nil_r. now destruct fam.
Qed.

(** The families after the loop: each has one more sample per item. *)
Lemma loop_families account group items : forall st,
  length (families st) = length per_container ->
  families (foldl (loop_body account group) st items)
  = zip_with (extended account group items) (families st) per_container.
Proof.
  induction items as [|[container_name metrics] items IH]; intros st Hlen.
  - cbn [foldl]. symmetry. now apply extended_nil.
  - cbn [foldl]. rewrite IH.
    + cbn [loop_body families]. rewrite zip_with_zip_with.
      apply zip_with_ext; [|reflexivity|reflexivity].
      intros fam key. unfold extended, add_metric. cbn.
      now rewrite <- app_assoc.
    + cbn [loop_body families]. rewrite length_zip_with. lia.
Qed.

(** Everything [collect] yields, family by family. *)
Lemma metric_families_spec account group
    (containers_data : gmap string ContainerMetrics) :
  metric_families account group containers_data
  = (container_family account group containers_data <$> per_container)
    ++ account_families account group
         {| total_size := sum_of Metrics.size_bytes containers_data;
            total_deleted_size := sum_of Metrics.deleted_size_bytes containers_data;
            total_snapshot_size := sum_of Metrics.snapshot_size_bytes containers_data;
            total_version_size := sum_of Metrics.version_size_bytes containers_data |}.
Proof.
  unfold metric_families. f_equal.
  - rewrite loop_families by reflexivity.
    unfold before_loop. cbn [families]. rewrite zip_with_fmap_same.
    reflexivity.
  - destruct (loop_totals account group (map_to_list containers_data) before_loop)
      as (H1 & H2 & H3 & H4).
    rewrite !sum_of_items.
    destruct (totals _) as [t1 t2 t3 t4]. cbn in H1, H2, H3, H4. subst.
    reflexivity.
Qed.

(** X16. Each of the eight per-container families that [collect] yields
    has exactly one sample per container of the snapshot, labelled with the
    storage account, the container and the resource group, and carrying
    that container's value of the family's field. *)
Theorem every_container_is_reported_once account group
    (containers_data : gmap string ContainerMetrics) i key :
  per_container !! i = Some key ->
  exists family,
    metric_families account group containers_data !! i = Some family
    /\ name family = key.1
    /\ labels family = container_labels
    /\ samples family
       = sample_of account group key.2 <$> map_to_list containers_data
    /\ length (samples family) = base.size containers_data
    /\ NoDup (samples family).*1
    /\ (forall container metrics,
          containers_data !! container = Some metrics ->
          ([account; container; group], key.2 metrics) ∈ samples family).
Proof.
  intros Hkey. exists (container_family account group containers_data key).
  split.
  { rewrite metric_families_spec, lookup_app_l.
    - now rewrite list_lookup_fmap, Hkey.
    - rewrite length_fmap. now apply lookup_lt_Some in Hkey. }
  do 3 (split; [reflexivity|]). cbn [container_family samples]. split; [|split].
  - rewrite length_fmap. apply length_map_to_list.
  - rewrite <- list_fmap_compose.
    assert (forall l : list (string * ContainerMetrics),
              NoDup l.*1 ->
              NoDup (fst ∘ sample_of account group key.2 <$> l)) as Hnodup.
    { induction l as [|[n m] l IH]; intros Hl; [constructor|].
      rewrite fmap_cons in *. apply NoDup_cons in Hl as [Hn Hl].
      apply NoDup_cons. split; [|now apply IH].
      intros Hin. apply Hn. apply list_elem_of_fmap in Hin as [[n' m'] [Heq Hin]].
      cbn in Heq. injection Heq as ->. apply list_elem_of_fmap. now exists (n', m'). }
    apply Hnodup, NoDup_fst_map_to_list.
  - intros container metrics Hlookup. apply list_elem_of_fmap.
    exists (container, metrics). split; [reflexivity|].
    now apply elem_of_map_to_list.
Qed.

Lemma every_container_is_reported_once_witness :
  exists family,
    metric_families "account" "group" (one_container "logs" 10 5) !! 2%nat
    = Some family
    /\ name family = "azure_storage_container_deleted_size_bytes"%string
    /\ samples family = [(["account"; "logs"; "group"]%string, 5)].
Proof.
  destruct (every_container_is_reported_once "account" "group"
              (one_container "logs" 10 5) 2
              ("azure_storage_container_deleted_size_bytes"%string,
               Metrics.deleted_size_bytes) eq_refl)
    as (family & Hfamily & Hname & _ & Hsamples & _).
  exists family. split; [exact Hfamily|]. split; [exact Hname|].
  rewrite Hsamples. unfold one_container. rewrite map_to_list_singleton.
  reflexivity.
Defined.
End ProjectorMore.

(** ** The parts together *)
Section ExporterFacts.
Import Cache CacheSpec CacheLaws Projector ProjectorSpec ProjectorLaws Exporter.
Abbreviation ContainerMetrics := Scanner.ContainerMetrics.

Ltac collect_run :=
  unfold collect, time_time, scrape_done, scrape_errors_inc, instrument;
  py_unfold.

(** [collect] when the first fetch raises. *)
Lemma collect_failure_run s run e :
  _cache s = None ->
  fetched run = Raised e ->
  exists s',
    collect run s = (Raised e, s')
    /\ errors s' = errors s + 1
    /\ _cache s' = None.
Proof.
  intros Hempty Hfetched. collect_run.
  rewrite (scrape_empty s run Hempty), Hfetched. cbn.
  eexists. split; [reflexivity|]. cbn. split; [reflexivity|exact Hempty].
Qed.

(** X17. Once a snapshot is cached, fresh or stale, [collect] does not
    fail and does not fetch: it yields the families of the cached
    snapshot, counts no error, observes one scrape duration and sets the
    time of the last scrape. *)
Theorem collect_serves_the_cached_snapshot s run data t :
  _cache s = Some data ->
  _cache_timestamp s = Some t ->
  exists s' evs,
    collect run s
    = (Returned (metric_families (storage_account_name s)
                   (resource_group_name s) data), s')
    /\ _cache s' = Some data
    /\ _cache_timestamp s' = Some t
    /\ errors s' = errors s
    /\ last_scrape_timestamp (instruments s') = clock s
    /\ length (scrape_duration (instruments s'))
       = S (length (scrape_duration (instruments s)))
    /\ trace s' = trace s ++ evs
    /\ occurrences Fetch evs = 0%nat.
Proof.
  intros Hc Hts. collect_run.
  destruct (Z.ltb_spec (clock s - t) (cache_ttl_seconds s)) as [Hage|Hage].
  - rewrite (scrape_fresh s data t run) by (repeat split; assumption).
    cbn. eexists _, _. split; [reflexivity|]. cbn.
    rewrite length_app. cbn. repeat split; try assumption; lia.
  - rewrite (scrape_stale s data t run) by (repeat split; assumption).
    cbn. eexists _, _. split; [reflexivity|]. cbn.
    rewrite length_app. cbn. repeat split; try assumption; try lia.
    destruct (_refresh_in_progress s); reflexivity.
Qed.

Lemma collect_serves_the_cached_snapshot_witness :
  exists s' evs,
    collect slow_failure (cached_at_100 2000 false)
    = (Returned (metric_families "account" "group" (one_container "logs" 10 5)), s')
    /\ errors s' = 0
    /\ trace s' = trace (cached_at_100 2000 false) ++ evs
    /\ occurrences Fetch evs = 0%nat.
Proof.
  destruct (collect_serves_the_cached_snapshot (cached_at_100 2000 false)
              slow_failure (one_container "logs" 10 5) 100 eq_refl eq_refl)
    as (s' & evs & Hrun & _ & _ & Herrors & _ & _ & Htrace & Hfetch).
  exists s', evs. auto.
Defined.

(** X18. When the cache is empty and the fetch raises, [collect] raises
    the same exception after adding one to the scrape error counter; it
    observes no duration, leaves the time of the last scrape alone and the
    cache empty. *)
Theorem collect_counts_a_failed_first_scrape s run e :
  _cache s = None ->
  fetched run = Raised e ->
  exists s',
    collect run s = (Raised e, s')
    /\ errors s' = errors s + 1
    /\ scrape_duration (instruments s') = scrape_duration (instruments s)
    /\ last_scrape_timestamp (instruments s')
       = last_scrape_timestamp (instruments s)
    /\ _cache s' = None.
Proof.
  intros Hempty Hfetched. collect_run.
  rewrite (scrape_empty s run Hempty), Hfetched. cbn.
  eexists. split; [reflexivity|]. cbn. repeat split. exact Hempty.
Qed.

Lemma collect_counts_a_failed_first_scrape_witness :
  exists s',
    collect slow_failure (init "account" "group" 900 1000)
    = (Raised (AzureError 503), s')
    /\ errors s' = 1
    /\ _cache s' = None.
Proof.
  destruct (collect_counts_a_failed_first_scrape (init "account" "group" 900 1000)
              slow_failure (AzureError 503) eq_refl eq_refl)
    as (s' & Hrun & Herrors & _ & _ & Hempty).
  exists s'. auto.
Defined.

(** X19. An account without containers is scraped without error: the
    coordinator returns an empty snapshot without waiting for any scan,
    and the first [collect] yields the eight per-container families with
    no sample and the four account totals with the value 0. *)
Theorem empty_account_is_scraped account group ttl now seconds completions :
  let service :=
    {| FanOut.list_containers := Returned [];
       FanOut.as_completed := completions |} in
  exists s',
    collect (fetch_of service seconds) (init account group ttl now)
    = (Returned
         (((fun key => gauge key.1 container_labels) <$> per_container)
          ++ account_families account group
               {| total_size := 0; total_deleted_size := 0;
                  total_snapshot_size := 0; total_version_size := 0 |}),
       s')
    /\ _cache s' = Some ∅
    /\ errors s' = 0.
Proof.
  cbn zeta. collect_run.
  rewrite scrape_empty by reflexivity.
  match goal with |- context [fetched ?run] =>
    assert (fetched run = Returned ∅) as -> by reflexivity
  end.
  cbn. eexists. split.
  - unfold metric_families. rewrite map_to_list_empty. reflexivity.
  - split; reflexivity.
Qed.

(** X20. When the containers cannot be listed, the coordinator raises
    the error of the listing and merges nothing, and the first [collect]
    passes the same error on to its caller, counts it and leaves the cache
    empty. *)
Theorem listing_failure_fails_the_scrape service e account group ttl now seconds :
  FanOut.list_containers service = Raised e ->
  exists locals s',
    FanOut.get_container_metrics service = (Raised e, locals)
    /\ FanOut.containers_data locals = ∅
    /\ FanOut.events locals = [FanOut.LogErrorGetting e]
    /\ collect (fetch_of service seconds) (init account group ttl now)
       = (Raised e, s')
    /\ errors s' = 1
    /\ _cache s' = None.
Proof.
  intros Hlist.
  assert (FanOut.get_container_metrics service
          = (Raised e, {| FanOut.containers_data := ∅; FanOut.completed := 0;
                          FanOut.events := [FanOut.LogErrorGetting e] |})) as Hget.
  { unfold FanOut.get_container_metrics, FanOut._get_container_metrics, FanOut.emit.
    py_unfold. rewrite Hlist. reflexivity. }
  destruct (collect_failure_run (init account group ttl now)
              (fetch_of service seconds) e) as (s' & Hrun & Herrors & Hempty);
    [reflexivity | unfold fetch_of; cbn; now rewrite Hget |].
  eexists _, s'. split; [exact Hget|]. repeat split; assumption.
Qed.

Lemma listing_failure_fails_the_scrape_witness :
  exists locals s',
    FanOut.get_container_metrics (unreachable (AzureError 503))
    = (Raised (AzureError 503), locals)
    /\ collect (fetch_of (unreachable (AzureError 503)) 3)
         (init "account" "group" 900 1000)
       = (Raised (AzureError 503), s')
    /\ errors s' = 1.
Proof.
  destruct (listing_failure_fails_the_scrape (unreachable (AzureError 503))
              (AzureError 503) "account" "group" 900 1000 3 eq_refl)
    as (locals & s' & Hget & _ & _ & Hrun & Herrors & _).
  exists locals, s'. auto.
Defined.




End ExporterFacts.
